(** * DouaneCalc-Maroc: the customs valuation engine [calculateCustoms]

  A shallow embedding of the valuation ("Valeur à Déclarer") calculation of
  the two [App] components of the repository, and the properties of the
  specification checked against it.

  Numbers.  The source computes on JavaScript numbers.  The engine is
  embedded twice.  The general statements are about the engine over exact
  rationals [Q], where "equal" between computed amounts is [Qeq] ([==]).
  Module [Double] is the same engine over IEEE 754 binary64 numbers; it
  evaluates concrete invoices to the last digit, and shows where two
  readings that agree over the rationals part on the numbers of the code.

  Two listings.  The repository holds two versions of [calculateCustoms]
  (src/unnamed/part_001, lines 27-132 and lines 317-428).  They share their
  skeleton and differ in a handful of lines; the embedding follows the
  skeleton once and shows every differing line under a [match] on
  [Variant]. *)

From Stdlib Require Import QArith Qfield List String Ascii NArith Bool.
From Stdlib Require Import Permutation.
From Stdlib Require Import Floats.PrimFloat.
Import ListNotations.

Local Open Scope string_scope.
Local Open Scope Q_scope.
Set Warnings "-inexact-float".

(* ================================================================== *)
(** ** JavaScript primitives used by the engine *)
(* ================================================================== *)

Module JS.

(** A call either returns or throws; the only exception the engine can raise
    is the [TypeError] of calling a missing method. *)
Inductive Completion (A : Type) : Type :=
| Normal (a : A)
| TypeError.
Arguments Normal {A} a.
Arguments TypeError {A}.

Definition bind {A B} (c : Completion A) (k : A -> Completion B) : Completion B :=
  match c with
  | Normal a => k a
  | TypeError => TypeError
  end.

(** [xs.map(f)] where [f] may throw: the first exception aborts the map. *)
Fixpoint mapM {A B} (f : A -> Completion B) (xs : list A) : Completion (list B) :=
  match xs with
  | [] => Normal []
  | x :: xs' =>
      bind (f x) (fun y => bind (mapM f xs') (fun ys => Normal (y :: ys)))
  end.

(** [xs.reduce(f, init)]. *)
Definition reduce {A B} (f : B -> A -> B) (xs : list A) (init : B) : B :=
  fold_left f xs init.

(** [x > y] on numbers. *)
Definition gt (x y : Q) : bool := negb (Qle_bool x y).

(** [x || d] for a number [x]: [0] is falsy. *)
Definition orNum (x d : Q) : Q := if Qeq_bool x 0 then d else x.

(** [x || d] for an optional numeric property: [undefined] and [0] are
    falsy. *)
Definition orOpt (x : option Q) (d : Q) : Q :=
  match x with
  | Some q => orNum q d
  | None => d
  end.

(** [s || d] for a string: the empty string is falsy. *)
Definition orStr (s d : string) : string :=
  match s with
  | EmptyString => d
  | _ => s
  end.

(** [s.toUpperCase()].  Strings are UTF-8 byte strings.  ASCII letters are
    mapped to their capitals and the dotless i (U+0131, bytes C4 B1) to
    [I]; every other character keeps its bytes.  The engine only compares
    the result with ["CFR"] and ["CIF"], and no other character has an upper
    case form made of the letters C, F, I, R, so these comparisons come out
    as in JavaScript. *)
Definition upperAscii (c : ascii) : ascii :=
  let n := N_of_ascii c in
  if ((97 <=? n) && (n <=? 122))%N then ascii_of_N (n - 32) else c.

Fixpoint toUpperCase (s : string) : string :=
  match s with
  | EmptyString => EmptyString
  | String c s' =>
      match s' with
      | String d s'' =>
          if ((N_of_ascii c =? 196) && (N_of_ascii d =? 177))%N
          then String "I" (toUpperCase s'')
          else String (upperAscii c) (toUpperCase s')
      | EmptyString => String (upperAscii c) EmptyString
      end
  end.

(** [Array.from(new Set(xs))]: the distinct strings of [xs], each at the
    place of its first occurrence. *)
Fixpoint distinct (seen : list string) (xs : list string) : list string :=
  match xs with
  | [] => []
  | x :: xs' =>
      if existsb (String.eqb x) seen then distinct seen xs'
      else x :: distinct (x :: seen) xs'
  end.

Definition Array_from_Set (xs : list string) : list string := distinct [] xs.

(** *** Plain objects used as maps

    An object literal is embedded as the list of its own properties in
    creation order.  Reading a property that is not its own falls through
    to [Object.prototype]. *)
Definition Obj (V : Type) : Type := list (string * V).

Definition Object_prototype : list string :=
  [ "constructor"; "hasOwnProperty"; "isPrototypeOf"; "propertyIsEnumerable";
    "toLocaleString"; "toString"; "valueOf"; "__proto__";
    "__defineGetter__"; "__defineSetter__"; "__lookupGetter__";
    "__lookupSetter__" ].

Definition inherited (key : string) : bool :=
  existsb (String.eqb key) Object_prototype.

Inductive Property (V : Type) : Type :=
| Own (v : V)
| Inherited (name : string)
| Undefined.
Arguments Own {V} v.
Arguments Undefined {V}.
Arguments Inherited {V} name.

Fixpoint getOwn {V} (o : Obj V) (key : string) : option V :=
  match o with
  | [] => None
  | (k, v) :: o' => if String.eqb k key then Some v else getOwn o' key
  end.

(** [o[key]]. *)
Definition get {V} (o : Obj V) (key : string) : Property V :=
  match getOwn o key with
  | Some v => Own v
  | None => if inherited key then Inherited key else Undefined
  end.

(** [o[key].push(x)] for an own property [key] holding an array. *)
Fixpoint push {V} (o : Obj (list V)) (key : string) (x : V) : Obj (list V) :=
  match o with
  | [] => []
  | (k, xs) :: o' =>
      if String.eqb k key then (k, xs ++ [x])%list :: o'
      else (k, xs) :: push o' key x
  end.

(** A property key is an array index when it is the canonical decimal
    numeral of an integer below 2^32 - 1. *)
Definition digit (c : ascii) : option N :=
  let n := N_of_ascii c in
  if ((48 <=? n) && (n <=? 57))%N then Some (n - 48)%N else None.

Fixpoint decimal (s : string) (acc : N) : option N :=
  match s with
  | EmptyString => Some acc
  | String c s' =>
      match digit c with
      | Some d => decimal s' (10 * acc + d)%N
      | None => None
      end
  end.

Definition arrayIndex (key : string) : option N :=
  match key with
  | EmptyString => None
  | String c rest =>
      match digit c, rest with
      | None, _ => None
      | Some 0%N, EmptyString => Some 0%N
      | Some 0%N, _ => None
      | Some _, _ =>
          match decimal key 0 with
          | Some n => if (n <? 4294967295)%N then Some n else None
          | None => None
          end
      end
  end.

Fixpoint insertByIndex {V} (n : N) (e : string * V)
         (sorted : list (N * (string * V))) : list (N * (string * V)) :=
  match sorted with
  | [] => [(n, e)]
  | (m, e') :: rest =>
      if (n <=? m)%N then (n, e) :: sorted
      else (m, e') :: insertByIndex n e rest
  end.

Fixpoint indexKeys {V} (o : Obj V) : list (N * (string * V)) :=
  match o with
  | [] => []
  | (k, v) :: o' =>
      match arrayIndex k with
      | Some n => insertByIndex n (k, v) (indexKeys o')
      | None => indexKeys o'
      end
  end.

Fixpoint stringKeys {V} (o : Obj V) : list (string * V) :=
  match o with
  | [] => []
  | (k, v) :: o' =>
      match arrayIndex k with
      | Some _ => stringKeys o'
      | None => (k, v) :: stringKeys o'
      end
  end.

(** [Object.entries(o)]: array-index keys in ascending numeric order, then
    the other keys in creation order. *)
Definition Object_entries {V} (o : Obj V) : list (string * V) :=
  (map snd (indexKeys o) ++ stringKeys o)%list.

End JS.

Notation "x <- c ;; k" := (JS.bind c (fun x => k))
(at level 61, c at next level, right associativity).

(* ================================================================== *)
(** ** Data model (the interfaces of [types.ts]) *)
(* ================================================================== *)

Inductive TransportMethod : Type := AIR | SEA | LAND.

Module InvoiceItem.
Record t : Type := mk {
  description : string;
  quantity : Q;
  unitPrice : Q;
  totalPrice : Q;
  regime : string;
  hsCode : string;
  weightNet : option Q;
  packagingCaisses : option Q;
  packagingPalettes : option Q
}.
End InvoiceItem.

Module InvoiceData.
Record t : Type := mk {
  invoiceNumber : string;
  date : string;
  currency : string;
  subtotal : Q;
  fret : Q;
  assurance : Q;
  incoterm : string;
  totalWeightBrut : Q;
  transportMethod : TransportMethod;
  originCountry : option string;
  items : list InvoiceItem.t
}.
End InvoiceData.

(** [weightNet] of a breakdown and [hsCodeBreakdown] of a regime are declared
  optional in the interfaces; [calculateCustoms] always assigns them, so
  the records hold them directly. *)
Module HSCodeBreakdown.
Record t : Type := mk {
  hsCode : string;
  description : string;
  weightBrut : Q;
  weightNet : Q;
  fobValueMAD : Q;
  fretValueMAD : Q;
  assuranceValueMAD : Q;
  aconageValueMAD : Q;
  totalVAD : Q
}.
End HSCodeBreakdown.

(** What [REGIME_LABELS[regime] || 'Régime Spécifique'] evaluates to: a label,
  or the member of [Object.prototype] the lookup fell through to. *)
Inductive Libelle : Type :=
| Label (text : string)
| PrototypeMember (name : string).

Module RegimeResult.
Record t : Type := mk {
  regime : string;
  regimeLibelle : Libelle;
  fobValueMAD : Q;
  fretValueMAD : Q;
  assuranceValueMAD : Q;
  aconageValueMAD : Q;
  weightBrut : Q;
  totalVAD : Q;
  hsCodeBreakdown : list HSCodeBreakdown.t
}.
End RegimeResult.

Module CustomsResult.
Record t : Type := mk {
  exchangeRate : Q;
  incoterm : string;
  totalFobMAD : Q;
  totalFretMAD : Q;
  totalAssuranceMAD : Q;
  totalAconageMAD : Q;
  totalWeightBrut : Q;
  totalVAD : Q;
  breakdown : list RegimeResult.t
}.
End CustomsResult.

(* ================================================================== *)
(** ** The engine *)
(* ================================================================== *)

(** The two listings of [calculateCustoms] in src/unnamed/part_001:
    [ListingA] is lines 27-132 (constant [ACONAGE_FIXED_MAD]),
    [ListingB] is lines 317-428 (constant [ACONAGE_TOTAL_MAD]). *)
Inductive Variant : Type := ListingA | ListingB.

Definition ACONAGE_FIXED_MAD : Q := 2300.
Definition ACONAGE_TOTAL_MAD : Q := 2300.

Definition REGIME_LABELS (v : Variant) : JS.Obj string :=
  [ ("010", "Mise à la consommation directe");
    ("023", "ATPA sans paiement");
    ("312", match v with
            | ListingA => "AT d'emballages importés pleins"
            | ListingB => "AT d'emballages et contenants importés pleins"
            end);
    ("311", match v with
            | ListingA => "AT d'emballages importés vides"
            | ListingB => "AT d'emballages et contenants importés vides"
            end);
    ("022", "ATPA avec paiement");
    ("040", "MAC en suite d'ATPA") ].

(** [REGIME_LABELS[regime] || 'Régime Spécifique'] *)
Definition regimeLibelle (v : Variant) (regime : string) : Libelle :=
  match JS.get (REGIME_LABELS v) regime with
  | JS.Own text => Label (JS.orStr text "Régime Spécifique")
  | JS.Inherited name => PrototypeMember name
  | JS.Undefined => Label "Régime Spécifique"
  end.

Section CalculateCustoms.

Variable v : Variant.
Variable data : InvoiceData.t.
Variable rate : Q.

Definition totalFobMAD : Q := InvoiceData.subtotal data * rate.

Definition totalFretMAD : Q := InvoiceData.fret data * rate.

Definition isCFR : bool :=
  let upper := JS.toUpperCase (InvoiceData.incoterm data) in
  match v with
  | ListingA => String.eqb upper "CFR" || String.eqb upper "CIF"
  | ListingB => String.eqb upper "CFR"
  end.

Definition totalWeightBrut : Q :=
  match v with
  | ListingA => JS.orNum (InvoiceData.totalWeightBrut data) 1
  | ListingB => InvoiceData.totalWeightBrut data
  end.

Definition globalFretRatio : Q :=
  match v with
  | ListingA => totalFretMAD / totalWeightBrut
  | ListingB =>
      if JS.gt totalWeightBrut 0 then totalFretMAD / totalWeightBrut else 0
  end.

Definition globalAconageRatio : Q :=
  match v with
  | ListingA => ACONAGE_FIXED_MAD / totalWeightBrut
  | ListingB =>
      if JS.gt totalWeightBrut 0 then ACONAGE_TOTAL_MAD / totalWeightBrut else 0
  end.

(** The net weight of the regime-"023" items, as the [filter]/[reduce] chain
    of both listings computes it. *)
Definition weight023Sum : Q :=
  JS.reduce (fun s i => s + JS.orOpt (InvoiceItem.weightNet i) 0)
    (filter (fun i => String.eqb (InvoiceItem.regime i) "023")
       (InvoiceData.items data))
    0.

Definition weight023Total : Q :=
  match v with
  | ListingA => JS.orNum weight023Sum 1
  | ListingB => weight023Sum
  end.

Definition fretRatioFor023_CFR : Q :=
  match v with
  | ListingA => totalFretMAD / weight023Total
  | ListingB =>
      if JS.gt weight023Total 0 then totalFretMAD / weight023Total else 0
  end.

Definition regimesFound : list string :=
  JS.Array_from_Set (map InvoiceItem.regime (InvoiceData.items data)).

Section Regime.

Variable regime : string.

Definition regimeItems : list InvoiceItem.t :=
  filter (fun item => String.eqb (InvoiceItem.regime item) regime)
    (InvoiceData.items data).

(** The key of the bucket an item goes to: [item.hsCode || 'VARIOUS'] in
    listing A, [item.hsCode || 'UNKNOWN'] in listing B. *)
Definition hsKey (item : InvoiceItem.t) : string :=
  JS.orStr (InvoiceItem.hsCode item)
    match v with
    | ListingA => "VARIOUS"
    | ListingB => "UNKNOWN"
    end.

(** One turn of the [forEach] that fills [hsGroups]:
    [if (!hsGroups[key]) hsGroups[key] = []; hsGroups[key].push(item)].
    When [key] names a member of [Object.prototype] the test finds a truthy
    value, no array is created, and [push] is not a function. *)
Definition hsGroupsStep (hsGroups : JS.Obj (list InvoiceItem.t))
           (item : InvoiceItem.t) : JS.Completion (JS.Obj (list InvoiceItem.t)) :=
  let key := hsKey item in
  match JS.get hsGroups key with
  | JS.Own _ => JS.Normal (JS.push hsGroups key item)
  | JS.Inherited _ => JS.TypeError
  | JS.Undefined => JS.Normal (JS.push (hsGroups ++ [(key, [])])%list key item)
  end.

Fixpoint hsGroupsFrom (items : list InvoiceItem.t)
         (hsGroups : JS.Obj (list InvoiceItem.t))
  : JS.Completion (JS.Obj (list InvoiceItem.t)) :=
  match items with
  | [] => JS.Normal hsGroups
  | item :: items' =>
      hsGroups' <- hsGroupsStep hsGroups item ;;
      hsGroupsFrom items' hsGroups'
  end.

Definition hsGroups : JS.Completion (JS.Obj (list InvoiceItem.t)) :=
  hsGroupsFrom regimeItems [].

(** *** The callback of [Object.entries(hsGroups).map], local by local *)

Section HSGroup.

Variable items : list InvoiceItem.t.

Definition fobHS : Q :=
  JS.reduce (fun sum i => sum + InvoiceItem.totalPrice i) items 0 * rate.

Definition netWeightHS : Q :=
  JS.reduce (fun sum i => sum + JS.orOpt (InvoiceItem.weightNet i) 0) items 0.

Definition weightHS : Q :=
  if String.eqb regime "023" then netWeightHS
  else if String.eqb regime "312" then
    let c := JS.reduce
               (fun sum i => sum + JS.orOpt (InvoiceItem.packagingCaisses i) 0)
               items 0 in
    let p := JS.reduce
               (fun sum i => sum + JS.orOpt (InvoiceItem.packagingPalettes i) 0)
               items 0 in
    (c * 2) + (p * 25)
  else netWeightHS.

(** The pair ([fretHSValueForVAD], [displayFretHS]) after the Incoterm
    branch. *)
Definition fretHS : Q * Q :=
  if isCFR then
    if String.eqb regime "023" then
      let fretHSValueForVAD := fretRatioFor023_CFR * weightHS in
      (fretHSValueForVAD, fretHSValueForVAD)
    else
      (0, globalFretRatio * weightHS)
  else
    let fretHSValueForVAD := globalFretRatio * weightHS in
    (fretHSValueForVAD, fretHSValueForVAD).

Definition fretHSValueForVAD : Q := fst fretHS.

Definition displayFretHS : Q := snd fretHS.

Definition aconageHS : Q := weightHS * globalAconageRatio.

Definition assuranceHS : Q := (fobHS + fretHSValueForVAD) * 0.005.

(** [items[0].description]; a bucket is created by the [push] of its first
    item, so it is never empty. *)
Definition firstDescription : string :=
  match items with
  | i :: _ => InvoiceItem.description i
  | [] => EmptyString
  end.

End HSGroup.

Definition hsCodeEntry (entry : string * list InvoiceItem.t) : HSCodeBreakdown.t :=
  let (hsCode, items) := entry in
  {| HSCodeBreakdown.hsCode := hsCode;
     HSCodeBreakdown.description := firstDescription items;
     HSCodeBreakdown.weightBrut := weightHS items;
     HSCodeBreakdown.weightNet := netWeightHS items;
     HSCodeBreakdown.fobValueMAD := fobHS items;
     HSCodeBreakdown.fretValueMAD := displayFretHS items;
     HSCodeBreakdown.assuranceValueMAD := assuranceHS items;
     HSCodeBreakdown.aconageValueMAD := aconageHS items;
     HSCodeBreakdown.totalVAD :=
       fobHS items + fretHSValueForVAD items + assuranceHS items + aconageHS items |}.

(** *** The regime rollup *)

Definition fretRegimeForVAD (hsCodeBreakdown : list HSCodeBreakdown.t)
           (weightRegime : Q) : Q :=
  match v with
  | ListingA =>
      JS.reduce (fun s h => s + HSCodeBreakdown.fretValueMAD h) hsCodeBreakdown 0
  | ListingB =>
      if String.eqb regime "023" && isCFR then totalFretMAD
      else if isCFR then 0
      else globalFretRatio * weightRegime
  end.

Definition regimeResultOf (groups : JS.Obj (list InvoiceItem.t)) : RegimeResult.t :=
  let hsCodeBreakdown := map hsCodeEntry (JS.Object_entries groups) in
  let weightRegime :=
    JS.reduce (fun s h => s + HSCodeBreakdown.weightBrut h) hsCodeBreakdown 0 in
  let fobRegime :=
    JS.reduce (fun s h => s + HSCodeBreakdown.fobValueMAD h) hsCodeBreakdown 0 in
  let aconageRegime :=
    JS.reduce (fun s h => s + HSCodeBreakdown.aconageValueMAD h) hsCodeBreakdown 0 in
  let assuranceRegime :=
    JS.reduce (fun s h => s + HSCodeBreakdown.assuranceValueMAD h) hsCodeBreakdown 0 in
  {| RegimeResult.regime := regime;
     RegimeResult.regimeLibelle := regimeLibelle v regime;
     RegimeResult.fobValueMAD := fobRegime;
     RegimeResult.fretValueMAD := fretRegimeForVAD hsCodeBreakdown weightRegime;
     RegimeResult.assuranceValueMAD := assuranceRegime;
     RegimeResult.aconageValueMAD := aconageRegime;
     RegimeResult.weightBrut := weightRegime;
     RegimeResult.totalVAD :=
       JS.reduce (fun s h => s + HSCodeBreakdown.totalVAD h) hsCodeBreakdown 0;
     RegimeResult.hsCodeBreakdown := hsCodeBreakdown |}.

Definition regimeResult : JS.Completion RegimeResult.t :=
  groups <- hsGroups ;;
  JS.Normal (regimeResultOf groups).

End Regime.

(** *** The report.  [calculateCustoms] hands it to [setResults]; the
    embedding returns it. *)
Definition reportOf (breakdown : list RegimeResult.t) : CustomsResult.t :=
  {| CustomsResult.exchangeRate := rate;
     CustomsResult.incoterm := InvoiceData.incoterm data;
     CustomsResult.totalFobMAD := totalFobMAD;
     CustomsResult.totalFretMAD := totalFretMAD;
     CustomsResult.totalAssuranceMAD :=
       JS.reduce (fun s r => s + RegimeResult.assuranceValueMAD r) breakdown 0;
     CustomsResult.totalAconageMAD :=
       JS.reduce (fun s r => s + RegimeResult.aconageValueMAD r) breakdown 0;
     CustomsResult.totalWeightBrut := totalWeightBrut;
     CustomsResult.totalVAD :=
       JS.reduce (fun s r => s + RegimeResult.totalVAD r) breakdown 0;
     CustomsResult.breakdown := breakdown |}.

Definition calculateCustoms : JS.Completion CustomsResult.t :=
  breakdown <- JS.mapM regimeResult regimesFound ;;
  JS.Normal (reportOf breakdown).

End CalculateCustoms.

(* ================================================================== *)
(** ** Vocabulary of the specification *)
(* ================================================================== *)

(** The mathematical sum of a list of amounts; the properties below compare
    the engine's [reduce] chains with it. *)
Definition sumQ (xs : list Q) : Q := fold_right Qplus 0 xs.

(** Packaging counts of a bucket, a missing count being 0. *)
Definition boxCount (items : list InvoiceItem.t) : Q :=
  sumQ (map (fun i => match InvoiceItem.packagingCaisses i with
                      | Some c => c
                      | None => 0
                      end) items).

Definition palletCount (items : list InvoiceItem.t) : Q :=
  sumQ (map (fun i => match InvoiceItem.packagingPalettes i with
                      | Some p => p
                      | None => 0
                      end) items).

(** [entry] is one of the HS buckets the engine builds for [regime]. *)
Definition hsGroupOf (v : Variant) (data : InvoiceData.t) (regime : string)
           (entry : string * list InvoiceItem.t) : Prop :=
  exists groups,
    hsGroups v data regime = JS.Normal groups /\
    In entry (JS.Object_entries groups).


(** *** Inputs the engine never reads *)

(** Two items that agree on every field but [quantity] and [unitPrice]. *)
Definition sameItemButUnused (i j : InvoiceItem.t) : Prop :=
  InvoiceItem.description i = InvoiceItem.description j /\
  InvoiceItem.totalPrice i = InvoiceItem.totalPrice j /\
  InvoiceItem.regime i = InvoiceItem.regime j /\
  InvoiceItem.hsCode i = InvoiceItem.hsCode j /\
  InvoiceItem.weightNet i = InvoiceItem.weightNet j /\
  InvoiceItem.packagingCaisses i = InvoiceItem.packagingCaisses j /\
  InvoiceItem.packagingPalettes i = InvoiceItem.packagingPalettes j.

(** Two invoices that agree on every field but [assurance] and, item by
    item, [quantity] and [unitPrice]. *)
Definition sameButUnused (d1 d2 : InvoiceData.t) : Prop :=
  InvoiceData.invoiceNumber d1 = InvoiceData.invoiceNumber d2 /\
  InvoiceData.date d1 = InvoiceData.date d2 /\
  InvoiceData.currency d1 = InvoiceData.currency d2 /\
  InvoiceData.subtotal d1 = InvoiceData.subtotal d2 /\
  InvoiceData.fret d1 = InvoiceData.fret d2 /\
  InvoiceData.incoterm d1 = InvoiceData.incoterm d2 /\
  InvoiceData.totalWeightBrut d1 = InvoiceData.totalWeightBrut d2 /\
  InvoiceData.transportMethod d1 = InvoiceData.transportMethod d2 /\
  InvoiceData.originCountry d1 = InvoiceData.originCountry d2 /\
  Forall2 sameItemButUnused (InvoiceData.items d1) (InvoiceData.items d2).

(** The invoice with the unused fields blanked. *)
Definition scrubItem (i : InvoiceItem.t) : InvoiceItem.t :=
  InvoiceItem.mk (InvoiceItem.description i) 0 0 (InvoiceItem.totalPrice i)
    (InvoiceItem.regime i) (InvoiceItem.hsCode i) (InvoiceItem.weightNet i)
    (InvoiceItem.packagingCaisses i) (InvoiceItem.packagingPalettes i).

Definition scrub (d : InvoiceData.t) : InvoiceData.t :=
  InvoiceData.mk (InvoiceData.invoiceNumber d) (InvoiceData.date d)
    (InvoiceData.currency d) (InvoiceData.subtotal d) (InvoiceData.fret d) 0
    (InvoiceData.incoterm d) (InvoiceData.totalWeightBrut d)
    (InvoiceData.transportMethod d) (InvoiceData.originCountry d)
    (map scrubItem (InvoiceData.items d)).

Definition scrubGroups (groups : JS.Obj (list InvoiceItem.t))
  : JS.Obj (list InvoiceItem.t) :=
  map (fun e => (fst e, map scrubItem (snd e))) groups.

(* ================================================================== *)
(** ** Sample invoices *)
(* ================================================================== *)

Definition sampleGoods : InvoiceItem.t :=
  InvoiceItem.mk "Oranges" 50 20 1000 "023" "HS1" (Some 500) None None.

Definition samplePackaging : InvoiceItem.t :=
  InvoiceItem.mk "Caisses et palettes" 12 0 0 "312" "PKG" None (Some 10) (Some 2).

(** Goods and packaging shipped CFR: 1000 of goods, 100 of freight, 500 kg. *)
Definition invoiceCFR : InvoiceData.t :=
  InvoiceData.mk "F-2024-001" "2024-03-01" "EUR" 1000 100 0 "cfr" 500 SEA None
    [sampleGoods; samplePackaging].

(** The same shipment under CIF. *)
Definition invoiceCIF : InvoiceData.t :=
  InvoiceData.mk "F-2024-001" "2024-03-01" "EUR" 1000 100 0 "CIF" 500 SEA None
    [sampleGoods; samplePackaging].

(** The same shipment under FOB. *)
Definition invoiceFOB : InvoiceData.t :=
  InvoiceData.mk "F-2024-001" "2024-03-01" "EUR" 1000 100 0 "FOB" 500 SEA None
    [sampleGoods; samplePackaging].

(** Goods shipped CFR on an invoice that declares no gross weight. *)
Definition invoiceNoGrossWeight : InvoiceData.t :=
  InvoiceData.mk "F-2024-002" "2024-03-02" "EUR" 1000 100 0 "CFR" 0 SEA None
    [sampleGoods].

(** Goods shipped CFR whose net weight was not extracted. *)
Definition invoiceNoNetWeight : InvoiceData.t :=
  InvoiceData.mk "F-2024-003" "2024-03-03" "EUR" 1000 100 0 "CFR" 500 SEA None
    [InvoiceItem.mk "Oranges" 50 20 1000 "023" "HS1" None None None].

(** An FOB invoice whose single line weighs 400 kg net of the 500 kg gross
    and is priced 900 of the 1000 subtotal. *)
Definition invoiceNetBelowGross : InvoiceData.t :=
  InvoiceData.mk "F-2024-004" "2024-03-04" "EUR" 1000 100 0 "FOB" 500 SEA None
    [InvoiceItem.mk "Oranges" 50 18 900 "023" "HS1" (Some 400) None None].

Definition goodsRow (v : Variant) (data : InvoiceData.t) : HSCodeBreakdown.t :=
  hsCodeEntry v data 11 "023" ("HS1", [sampleGoods]).

Definition packagingRow (v : Variant) (data : InvoiceData.t) : HSCodeBreakdown.t :=
  hsCodeEntry v data 11 "312" ("PKG", [samplePackaging]).

Definition goodsRegime (v : Variant) (data : InvoiceData.t) : RegimeResult.t :=
  regimeResultOf v data 11 "023" [("HS1", [sampleGoods])].

Definition packagingRegime (v : Variant) (data : InvoiceData.t) : RegimeResult.t :=
  regimeResultOf v data 11 "312" [("PKG", [samplePackaging])].

Definition sampleReport (v : Variant) (data : InvoiceData.t) : CustomsResult.t :=
  reportOf v data 11 [goodsRegime v data; packagingRegime v data].

(* ================================================================== *)
(** ** Around the engine *)
(* ================================================================== *)

(** The weight an invoice line brings to its group: the packaging estimate
    for regime "312", the net weight for every other regime. *)
Definition lineWeight (i : InvoiceItem.t) : Q :=
  if String.eqb (InvoiceItem.regime i) "312" then
    JS.orOpt (InvoiceItem.packagingCaisses i) 0 * 2
    + JS.orOpt (InvoiceItem.packagingPalettes i) 0 * 25
  else JS.orOpt (InvoiceItem.weightNet i) 0.


(** The distinct elements of a list, each at the place of its first
    occurrence, as a recursion on the list. *)
Fixpoint firstSeen (xs : list string) : list string :=
  match xs with
  | [] => []
  | x :: xs' => x :: filter (fun y => negb (String.eqb y x)) (firstSeen xs')
  end.

(** The bucket key [k] taken out of a list of lines, in invoice order. *)
Definition linesWithKey (v : Variant) (k : string) (items : list InvoiceItem.t)
  : list InvoiceItem.t :=
  filter (fun i => String.eqb (hsKey v i) k) items.

(** *** The regime block of the report component (src/unnamed/part_001,
    line 744): [result.hsCodeBreakdown?.reduce(...) || 0] *)
Definition fretSummary (result : RegimeResult.t) : Q :=
  JS.orNum
    (JS.reduce (fun s h => s + HSCodeBreakdown.fretValueMAD h)
       (RegimeResult.hsCodeBreakdown result) 0)
    0.

(** *** The two listings side by side *)

(** Two regime results that agree on everything but the label and the
    freight rollup. *)
Definition sameRegimeFigures (a b : RegimeResult.t) : Prop :=
  RegimeResult.regime a = RegimeResult.regime b /\
  RegimeResult.fobValueMAD a = RegimeResult.fobValueMAD b /\
  RegimeResult.assuranceValueMAD a = RegimeResult.assuranceValueMAD b /\
  RegimeResult.aconageValueMAD a = RegimeResult.aconageValueMAD b /\
  RegimeResult.weightBrut a = RegimeResult.weightBrut b /\
  RegimeResult.totalVAD a = RegimeResult.totalVAD b /\
  RegimeResult.hsCodeBreakdown a = RegimeResult.hsCodeBreakdown b.

(** Two reports that agree on everything but the labels and the freight
    rollups of their regimes. *)
Definition sameFigures (a b : CustomsResult.t) : Prop :=
  CustomsResult.exchangeRate a = CustomsResult.exchangeRate b /\
  CustomsResult.incoterm a = CustomsResult.incoterm b /\
  CustomsResult.totalFobMAD a = CustomsResult.totalFobMAD b /\
  CustomsResult.totalFretMAD a = CustomsResult.totalFretMAD b /\
  CustomsResult.totalAssuranceMAD a = CustomsResult.totalAssuranceMAD b /\
  CustomsResult.totalAconageMAD a = CustomsResult.totalAconageMAD b /\
  CustomsResult.totalWeightBrut a = CustomsResult.totalWeightBrut b /\
  CustomsResult.totalVAD a = CustomsResult.totalVAD b /\
  Forall2 sameRegimeFigures (CustomsResult.breakdown a) (CustomsResult.breakdown b).

(** Two outcomes of the engine: both reports, in the relation [R], or both
    exceptions. *)
Definition sameOutcome {A : Type} (R : A -> A -> Prop)
           (a b : JS.Completion A) : Prop :=
  match a, b with
  | JS.Normal x, JS.Normal y => R x y
  | JS.TypeError, JS.TypeError => True
  | _, _ => False
  end.

(** *** Invoices without negative figures *)

Definition nonnegative (x : option Q) : Prop :=
  match x with
  | Some q => 0 <= q
  | None => True
  end.

(** No negative rate, freight, declared weight, line total, net weight or
    packaging count. *)
Definition noNegativeFigure (data : InvoiceData.t) (rate : Q) : Prop :=
  0 <= rate /\
  0 <= InvoiceData.fret data /\
  0 <= InvoiceData.totalWeightBrut data /\
  forall i, In i (InvoiceData.items data) ->
    0 <= InvoiceItem.totalPrice i /\
    nonnegative (InvoiceItem.weightNet i) /\
    nonnegative (InvoiceItem.packagingCaisses i) /\
    nonnegative (InvoiceItem.packagingPalettes i).

(* ================================================================== *)
(** ** The engine on binary64 numbers *)
(* ================================================================== *)

(** The same two listings, line by line, with JavaScript numbers as IEEE 754
    binary64 values ([PrimFloat.float]): every [+], [*] and [/] rounds as
    the source's does, [x > y] is the IEEE comparison, and [0], [-0] and
    [NaN] are the falsy numbers of [||].  The module is used to evaluate
    the engine on concrete invoices to the last digit. *)

Module Double.

Local Open Scope float_scope.

(** [x > y] on numbers. *)
Definition gt (x y : float) : bool := PrimFloat.ltb y x.

(** [x || d] for a number [x]: [0], [-0] and [NaN] are falsy. *)
Definition orNum (x d : float) : float :=
  if PrimFloat.eqb x 0 || PrimFloat.is_nan x then d else x.

(** [x || d] for an optional numeric property. *)
Definition orOpt (x : option float) (d : float) : float :=
  match x with
  | Some q => orNum q d
  | None => d
  end.

Module InvoiceItem.
Record t : Type := mk {
  description : string;
  quantity : float;
  unitPrice : float;
  totalPrice : float;
  regime : string;
  hsCode : string;
  weightNet : option float;
  packagingCaisses : option float;
  packagingPalettes : option float
}.
End InvoiceItem.

Module InvoiceData.
Record t : Type := mk {
  invoiceNumber : string;
  date : string;
  currency : string;
  subtotal : float;
  fret : float;
  assurance : float;
  incoterm : string;
  totalWeightBrut : float;
  transportMethod : TransportMethod;
  originCountry : option string;
  items : list InvoiceItem.t
}.
End InvoiceData.

Module HSCodeBreakdown.
Record t : Type := mk {
  hsCode : string;
  description : string;
  weightBrut : float;
  weightNet : float;
  fobValueMAD : float;
  fretValueMAD : float;
  assuranceValueMAD : float;
  aconageValueMAD : float;
  totalVAD : float
}.
End HSCodeBreakdown.

Module RegimeResult.
Record t : Type := mk {
  regime : string;
  regimeLibelle : Libelle;
  fobValueMAD : float;
  fretValueMAD : float;
  assuranceValueMAD : float;
  aconageValueMAD : float;
  weightBrut : float;
  totalVAD : float;
  hsCodeBreakdown : list HSCodeBreakdown.t
}.
End RegimeResult.

Module CustomsResult.
Record t : Type := mk {
  exchangeRate : float;
  incoterm : string;
  totalFobMAD : float;
  totalFretMAD : float;
  totalAssuranceMAD : float;
  totalAconageMAD : float;
  totalWeightBrut : float;
  totalVAD : float;
  breakdown : list RegimeResult.t
}.
End CustomsResult.

Definition ACONAGE_FIXED_MAD : float := 2300.
Definition ACONAGE_TOTAL_MAD : float := 2300.

Section CalculateCustoms.

Variable v : Variant.
Variable data : InvoiceData.t.
Variable rate : float.

Definition totalFobMAD : float := InvoiceData.subtotal data * rate.

Definition totalFretMAD : float := InvoiceData.fret data * rate.

Definition isCFR : bool :=
  let upper := JS.toUpperCase (InvoiceData.incoterm data) in
  match v with
  | ListingA => String.eqb upper "CFR" || String.eqb upper "CIF"
  | ListingB => String.eqb upper "CFR"
  end.

Definition totalWeightBrut : float :=
  match v with
  | ListingA => orNum (InvoiceData.totalWeightBrut data) 1
  | ListingB => InvoiceData.totalWeightBrut data
  end.

Definition globalFretRatio : float :=
  match v with
  | ListingA => totalFretMAD / totalWeightBrut
  | ListingB =>
      if gt totalWeightBrut 0 then totalFretMAD / totalWeightBrut else 0
  end.

Definition globalAconageRatio : float :=
  match v with
  | ListingA => ACONAGE_FIXED_MAD / totalWeightBrut
  | ListingB =>
      if gt totalWeightBrut 0 then ACONAGE_TOTAL_MAD / totalWeightBrut else 0
  end.

(** The net weight of the regime-"023" items, as the [filter]/[reduce] chain
    of both listings computes it. *)
Definition weight023Sum : float :=
  JS.reduce (fun s i => s + orOpt (InvoiceItem.weightNet i) 0)
    (filter (fun i => String.eqb (InvoiceItem.regime i) "023")
       (InvoiceData.items data))
    0.

Definition weight023Total : float :=
  match v with
  | ListingA => orNum weight023Sum 1
  | ListingB => weight023Sum
  end.

Definition fretRatioFor023_CFR : float :=
  match v with
  | ListingA => totalFretMAD / weight023Total
  | ListingB =>
      if gt weight023Total 0 then totalFretMAD / weight023Total else 0
  end.

Definition regimesFound : list string :=
  JS.Array_from_Set (map InvoiceItem.regime (InvoiceData.items data)).

Section Regime.

Variable regime : string.

Definition regimeItems : list InvoiceItem.t :=
  filter (fun item => String.eqb (InvoiceItem.regime item) regime)
    (InvoiceData.items data).

(** The key of the bucket an item goes to: [item.hsCode || 'VARIOUS'] in
    listing A, [item.hsCode || 'UNKNOWN'] in listing B. *)
Definition hsKey (item : InvoiceItem.t) : string :=
  JS.orStr (InvoiceItem.hsCode item)
    match v with
    | ListingA => "VARIOUS"
    | ListingB => "UNKNOWN"
    end.

(** One turn of the [forEach] that fills [hsGroups]:
    [if (!hsGroups[key]) hsGroups[key] = []; hsGroups[key].push(item)].
    When [key] names a member of [Object.prototype] the test finds a truthy
    value, no array is created, and [push] is not a function. *)
Definition hsGroupsStep (hsGroups : JS.Obj (list InvoiceItem.t))
           (item : InvoiceItem.t) : JS.Completion (JS.Obj (list InvoiceItem.t)) :=
  let key := hsKey item in
  match JS.get hsGroups key with
  | JS.Own _ => JS.Normal (JS.push hsGroups key item)
  | JS.Inherited _ => JS.TypeError
  | JS.Undefined => JS.Normal (JS.push (hsGroups ++ [(key, [])])%list key item)
  end.

Fixpoint hsGroupsFrom (items : list InvoiceItem.t)
         (hsGroups : JS.Obj (list InvoiceItem.t))
  : JS.Completion (JS.Obj (list InvoiceItem.t)) :=
  match items with
  | [] => JS.Normal hsGroups
  | item :: items' =>
      hsGroups' <- hsGroupsStep hsGroups item ;;
      hsGroupsFrom items' hsGroups'
  end.

Definition hsGroups : JS.Completion (JS.Obj (list InvoiceItem.t)) :=
  hsGroupsFrom regimeItems [].

(** *** The callback of [Object.entries(hsGroups).map], local by local *)

Section HSGroup.

Variable items : list InvoiceItem.t.

Definition fobHS : float :=
  JS.reduce (fun sum i => sum + InvoiceItem.totalPrice i) items 0 * rate.

Definition netWeightHS : float :=
  JS.reduce (fun sum i => sum + orOpt (InvoiceItem.weightNet i) 0) items 0.

Definition weightHS : float :=
  if String.eqb regime "023" then netWeightHS
  else if String.eqb regime "312" then
    let c := JS.reduce
               (fun sum i => sum + orOpt (InvoiceItem.packagingCaisses i) 0)
               items 0 in
    let p := JS.reduce
               (fun sum i => sum + orOpt (InvoiceItem.packagingPalettes i) 0)
               items 0 in
    (c * 2) + (p * 25)
  else netWeightHS.

(** The pair ([fretHSValueForVAD], [displayFretHS]) after the Incoterm
    branch. *)
Definition fretHS : float * float :=
  if isCFR then
    if String.eqb regime "023" then
      let fretHSValueForVAD := fretRatioFor023_CFR * weightHS in
      (fretHSValueForVAD, fretHSValueForVAD)
    else
      (0, globalFretRatio * weightHS)
  else
    let fretHSValueForVAD := globalFretRatio * weightHS in
    (fretHSValueForVAD, fretHSValueForVAD).

Definition fretHSValueForVAD : float := fst fretHS.

Definition displayFretHS : float := snd fretHS.

Definition aconageHS : float := weightHS * globalAconageRatio.

Definition assuranceHS : float := (fobHS + fretHSValueForVAD) * 0.005.

(** [items[0].description]; a bucket is created by the [push] of its first
    item, so it is never empty. *)
Definition firstDescription : string :=
  match items with
  | i :: _ => InvoiceItem.description i
  | [] => EmptyString
  end.

End HSGroup.

Definition hsCodeEntry (entry : string * list InvoiceItem.t) : HSCodeBreakdown.t :=
  let (hsCode, items) := entry in
  {| HSCodeBreakdown.hsCode := hsCode;
     HSCodeBreakdown.description := firstDescription items;
     HSCodeBreakdown.weightBrut := weightHS items;
     HSCodeBreakdown.weightNet := netWeightHS items;
     HSCodeBreakdown.fobValueMAD := fobHS items;
     HSCodeBreakdown.fretValueMAD := displayFretHS items;
     HSCodeBreakdown.assuranceValueMAD := assuranceHS items;
     HSCodeBreakdown.aconageValueMAD := aconageHS items;
     HSCodeBreakdown.totalVAD :=
       fobHS items + fretHSValueForVAD items + assuranceHS items + aconageHS items |}.

(** *** The regime rollup *)

Definition fretRegimeForVAD (hsCodeBreakdown : list HSCodeBreakdown.t)
           (weightRegime : float) : float :=
  match v with
  | ListingA =>
      JS.reduce (fun s h => s + HSCodeBreakdown.fretValueMAD h) hsCodeBreakdown 0
  | ListingB =>
      if String.eqb regime "023" && isCFR then totalFretMAD
      else if isCFR then 0
      else globalFretRatio * weightRegime
  end.

Definition regimeResultOf (groups : JS.Obj (list InvoiceItem.t)) : RegimeResult.t :=
  let hsCodeBreakdown := map hsCodeEntry (JS.Object_entries groups) in
  let weightRegime :=
    JS.reduce (fun s h => s + HSCodeBreakdown.weightBrut h) hsCodeBreakdown 0 in
  let fobRegime :=
    JS.reduce (fun s h => s + HSCodeBreakdown.fobValueMAD h) hsCodeBreakdown 0 in
  let aconageRegime :=
    JS.reduce (fun s h => s + HSCodeBreakdown.aconageValueMAD h) hsCodeBreakdown 0 in
  let assuranceRegime :=
    JS.reduce (fun s h => s + HSCodeBreakdown.assuranceValueMAD h) hsCodeBreakdown 0 in
  {| RegimeResult.regime := regime;
     RegimeResult.regimeLibelle := regimeLibelle v regime;
     RegimeResult.fobValueMAD := fobRegime;
     RegimeResult.fretValueMAD := fretRegimeForVAD hsCodeBreakdown weightRegime;
     RegimeResult.assuranceValueMAD := assuranceRegime;
     RegimeResult.aconageValueMAD := aconageRegime;
     RegimeResult.weightBrut := weightRegime;
     RegimeResult.totalVAD :=
       JS.reduce (fun s h => s + HSCodeBreakdown.totalVAD h) hsCodeBreakdown 0;
     RegimeResult.hsCodeBreakdown := hsCodeBreakdown |}.

Definition regimeResult : JS.Completion RegimeResult.t :=
  groups <- hsGroups ;;
  JS.Normal (regimeResultOf groups).

End Regime.

(** *** The report.  [calculateCustoms] hands it to [setResults]; the
    embedding returns it. *)
Definition reportOf (breakdown : list RegimeResult.t) : CustomsResult.t :=
  {| CustomsResult.exchangeRate := rate;
     CustomsResult.incoterm := InvoiceData.incoterm data;
     CustomsResult.totalFobMAD := totalFobMAD;
     CustomsResult.totalFretMAD := totalFretMAD;
     CustomsResult.totalAssuranceMAD :=
       JS.reduce (fun s r => s + RegimeResult.assuranceValueMAD r) breakdown 0;
     CustomsResult.totalAconageMAD :=
       JS.reduce (fun s r => s + RegimeResult.aconageValueMAD r) breakdown 0;
     CustomsResult.totalWeightBrut := totalWeightBrut;
     CustomsResult.totalVAD :=
       JS.reduce (fun s r => s + RegimeResult.totalVAD r) breakdown 0;
     CustomsResult.breakdown := breakdown |}.

Definition calculateCustoms : JS.Completion CustomsResult.t :=
  breakdown <- JS.mapM regimeResult regimesFound ;;
  JS.Normal (reportOf breakdown).

End CalculateCustoms.

(** *** Sample invoices *)

Definition goods400 : InvoiceItem.t :=
  InvoiceItem.mk "Oranges" 40 20 800 "023" "HS1" (Some 400) None None.

Definition goods100 : InvoiceItem.t :=
  InvoiceItem.mk "Citrons" 10 20 200 "023" "HS2" (Some 100) None None.

(** Two groups of regime "023", 400 kg and 100 kg, on an invoice of 1000 of
    goods and 100 of freight that declares 500 kg. *)
Definition invoiceTwoGroups (incoterm : string) : InvoiceData.t :=
  InvoiceData.mk "F-2024-006" "2024-03-06" "EUR" 1000 100 0 incoterm 500 SEA None
    [goods400; goods100].

Definition goodsUnweighed : InvoiceItem.t :=
  InvoiceItem.mk "Oranges" 50 20 1000 "023" "HS1" None None None.

(** Goods shipped CFR whose net weight was not extracted. *)
Definition invoiceNoNetWeight : InvoiceData.t :=
  InvoiceData.mk "F-2024-003" "2024-03-03" "EUR" 1000 100 0 "CFR" 500 SEA None
    [goodsUnweighed].

(** The invoice of the end-to-end scenario of the specification. *)
Definition invoiceScenario : InvoiceData.t :=
  InvoiceData.mk "F-2024-007" "2024-03-07" "EUR" 1000 100 0 "FOB" 500 SEA None
    [InvoiceItem.mk "Oranges" 50 20 1000 "023" "HS1" (Some 500) None None].

End Double.

(* ================================================================== *)
(** ** Proof tools *)
(* ================================================================== *)

Ltac bind_inv H :=
  match type of H with
  | JS.bind ?c _ = JS.Normal _ =>
      let E := fresh "E" in
      destruct c eqn:E; simpl in H; [|discriminate H]
  end.

Ltac differs := let H := fresh in intro H; vm_compute in H; discriminate H.

(* ================================================================== *)
(** ** Sums and conditions *)
(* ================================================================== *)

Lemma reduce_sum {A : Type} (f : A -> Q) (xs : list A) (init : Q) :
  JS.reduce (fun s x => s + f x) xs init == init + sumQ (map f xs).
Proof.
  unfold JS.reduce. revert init.
  induction xs as [|x xs IH]; intros init; simpl.
  - ring.
  - rewrite IH. ring.
Qed.

Lemma reduce_sum0 {A : Type} (f : A -> Q) (xs : list A) :
  JS.reduce (fun s x => s + f x) xs 0 == sumQ (map f xs).
Proof. rewrite reduce_sum. ring. Qed.


Lemma sumQ_scale {A : Type} (c : Q) (f : A -> Q) (xs : list A) :
  sumQ (map (fun x => c * f x) xs) == c * sumQ (map f xs).
Proof.
  induction xs as [|x xs IH]; simpl.
  - ring.
  - rewrite IH. ring.
Qed.

Lemma sumQ_ext {A : Type} (f g : A -> Q) (xs : list A) :
  (forall x, In x xs -> f x == g x) ->
  sumQ (map f xs) == sumQ (map g xs).
Proof.
  induction xs as [|x xs IH]; intros H; simpl.
  - reflexivity.
  - rewrite (H x (or_introl eq_refl)), IH; [reflexivity|].
    intros y Hy. apply H. now right.
Qed.

Lemma sumQ_zero {A : Type} (f : A -> Q) (xs : list A) :
  (forall x, In x xs -> f x == 0) -> sumQ (map f xs) == 0.
Proof.
  induction xs as [|x xs IH]; intros H; simpl.
  - reflexivity.
  - rewrite (H x (or_introl eq_refl)), IH; [ring|].
    intros y Hy. apply H. now right.
Qed.


(** ** JavaScript conditions read back as propositions *)

Lemma gt_true (x y : Q) : JS.gt x y = true <-> y < x.
Proof.
  unfold JS.gt. rewrite negb_true_iff.
  split; intros H.
  - apply Qnot_le_lt. intros Hle. apply Qle_bool_iff in Hle. congruence.
  - destruct (Qle_bool x y) eqn:E; [|reflexivity].
    apply Qle_bool_iff in E. exfalso. exact (Qlt_not_le _ _ H E).
Qed.

Lemma gt_false (x y : Q) : JS.gt x y = false <-> x <= y.
Proof.
  unfold JS.gt. rewrite negb_false_iff. apply Qle_bool_iff.
Qed.

Lemma orNum_zero (x d : Q) : x == 0 -> JS.orNum x d = d.
Proof.
  intros H. unfold JS.orNum.
  apply Qeq_bool_iff in H. now rewrite H.
Qed.

Lemma orNum_nonzero (x d : Q) : ~ x == 0 -> JS.orNum x d = x.
Proof.
  intros H. unfold JS.orNum.
  destruct (Qeq_bool x 0) eqn:E; [|reflexivity].
  apply Qeq_bool_iff in E. contradiction.
Qed.

Lemma orOpt_count (x : option Q) :
  JS.orOpt x 0 == match x with Some q => q | None => 0 end.
Proof.
  destruct x as [q|]; simpl; [|reflexivity].
  unfold JS.orNum. destruct (Qeq_bool q 0) eqn:E; [|reflexivity].
  apply Qeq_bool_iff in E. now rewrite E.
Qed.

(** ** The primitives at work *)

Example toUpperCase_cfr :
  JS.toUpperCase "cfr" = "CFR" /\ JS.toUpperCase "Cif" = "CIF" /\
  JS.toUpperCase "cıf" = "CIF" /\ JS.toUpperCase "fob " = "FOB ".
Proof. repeat split; reflexivity. Qed.

Example Array_from_Set_first_seen :
  JS.Array_from_Set ["312"; "023"; "312"; "010"; "023"] = ["312"; "023"; "010"].
Proof. reflexivity. Qed.

Example arrayIndex_keys :
  JS.arrayIndex "847130" = Some 847130%N /\
  JS.arrayIndex "0805100000" = None /\
  JS.arrayIndex "8471300000" = None /\
  JS.arrayIndex "HS1" = None.
Proof. repeat split; reflexivity. Qed.

(** Integer-like HS codes come first, in numeric order, whatever the order of
    the invoice lines. *)
Example Object_entries_order :
  map fst (JS.Object_entries [("HS1", 1%nat); ("9403", 2%nat);
                              ("0805100000", 3%nat); ("2204", 4%nat)])
  = ["2204"; "9403"; "HS1"; "0805100000"].
Proof. reflexivity. Qed.

(** Every division of the engine has a non-zero divisor: listing A
    replaces a zero by 1, listing B divides under the test [> 0]. *)
Lemma divisors_nonzero v data :
  (v = ListingA ->
   ~ totalWeightBrut v data == 0 /\ ~ weight023Total v data == 0) /\
  (v = ListingB ->
   (JS.gt (totalWeightBrut v data) 0 = true -> ~ totalWeightBrut v data == 0) /\
   (JS.gt (weight023Total v data) 0 = true -> ~ weight023Total v data == 0)).
Proof.
  assert (Hor : forall x, ~ JS.orNum x 1 == 0).
  { intros x. unfold JS.orNum. destruct (Qeq_bool x 0) eqn:E.
    - discriminate.
    - intros H. apply Qeq_bool_iff in H. congruence. }
  assert (Hgt : forall x, JS.gt x 0 = true -> ~ x == 0).
  { intros x H Hz. apply gt_true in H. rewrite Hz in H.
    exact (Qlt_irrefl 0 H). }
  split; intros ->; split; unfold totalWeightBrut, weight023Total; auto.
Qed.

(* ================================================================== *)
(** ** Shape of a returned report *)
(* ================================================================== *)

Lemma mapM_In {A B : Type} (f : A -> JS.Completion B) (xs : list A) (ys : list B) :
  JS.mapM f xs = JS.Normal ys ->
  forall y, In y ys -> exists x, In x xs /\ f x = JS.Normal y.
Proof.
  revert ys. induction xs as [|x xs IH]; intros ys H y Hy; simpl in H.
  - injection H as <-. contradiction.
  - bind_inv H. bind_inv H. injection H as <-.
    destruct Hy as [<-|Hy].
    + exists x. split; [now left|assumption].
    + destruct (IH _ eq_refl y Hy) as [x' [Hx' Hf]].
      exists x'. split; [now right|assumption].
Qed.

Lemma mapM_returns {A B : Type} (f : A -> JS.Completion B) (xs : list A) :
  (forall x, In x xs -> exists y, f x = JS.Normal y) ->
  exists ys, JS.mapM f xs = JS.Normal ys.
Proof.
  induction xs as [|x xs IH]; intros H; simpl.
  - now exists [].
  - destruct (H x (or_introl eq_refl)) as [y ->].
    destruct IH as [ys ->]; [intros x' Hx'; apply H; now right|].
    simpl. now exists (y :: ys).
Qed.

Lemma calculateCustoms_report v data rate res :
  calculateCustoms v data rate = JS.Normal res ->
  exists breakdown,
    JS.mapM (regimeResult v data rate) (regimesFound data) = JS.Normal breakdown /\
    res = reportOf v data rate breakdown.
Proof.
  unfold calculateCustoms. intros H. bind_inv H.
  injection H as <-. now exists a.
Qed.

Lemma regimeResult_groups v data rate regime r :
  regimeResult v data rate regime = JS.Normal r ->
  exists groups,
    hsGroups v data regime = JS.Normal groups /\
    r = regimeResultOf v data rate regime groups.
Proof.
  unfold regimeResult. intros H. bind_inv H.
  injection H as <-. now exists a.
Qed.

Lemma report_regime v data rate res r :
  calculateCustoms v data rate = JS.Normal res ->
  In r (CustomsResult.breakdown res) ->
  In (RegimeResult.regime r) (regimesFound data) /\
  exists groups,
    hsGroups v data (RegimeResult.regime r) = JS.Normal groups /\
    r = regimeResultOf v data rate (RegimeResult.regime r) groups.
Proof.
  intros H Hr.
  destruct (calculateCustoms_report _ _ _ _ H) as [bd [Hbd ->]].
  simpl in Hr.
  destruct (mapM_In _ _ _ Hbd _ Hr) as [regime [Hin Hreg]].
  destruct (regimeResult_groups _ _ _ _ _ Hreg) as [groups [Hg ->]].
  simpl. split; [assumption|]. now exists groups.
Qed.

Lemma report_group v data rate res r h :
  calculateCustoms v data rate = JS.Normal res ->
  In r (CustomsResult.breakdown res) ->
  In h (RegimeResult.hsCodeBreakdown r) ->
  exists items,
    hsGroupOf v data (RegimeResult.regime r) (HSCodeBreakdown.hsCode h, items) /\
    h = hsCodeEntry v data rate (RegimeResult.regime r)
          (HSCodeBreakdown.hsCode h, items).
Proof.
  intros H Hr Hh.
  destruct (report_regime _ _ _ _ _ H Hr) as [_ [groups [Hg Heq]]].
  rewrite Heq in Hh. simpl in Hh.
  apply in_map_iff in Hh. destruct Hh as [[k items] [<- Hin]].
  exists items. simpl. split; [|reflexivity].
  exists groups. rewrite Heq. simpl. now split.
Qed.

(** ** When the engine returns *)

Lemma hsGroupsFrom_returns v items groups :
  (forall i, In i items -> JS.inherited (hsKey v i) = false) ->
  exists groups', hsGroupsFrom v items groups = JS.Normal groups'.
Proof.
  revert groups. induction items as [|i items IH]; intros groups H; simpl.
  - now exists groups.
  - assert (Hi : JS.inherited (hsKey v i) = false) by (apply H; now left).
    unfold hsGroupsStep, JS.get. rewrite Hi.
    destruct (JS.getOwn groups (hsKey v i)); simpl;
      apply IH; intros j Hj; apply H; now right.
Qed.

(** The engine returns a report for every invoice none of whose bucket keys
    names a member of [Object.prototype]. *)
Lemma calculateCustoms_returns v data rate :
  (forall i, In i (InvoiceData.items data) -> JS.inherited (hsKey v i) = false) ->
  exists res, calculateCustoms v data rate = JS.Normal res.
Proof.
  intros H. unfold calculateCustoms.
  destruct (mapM_returns (regimeResult v data rate) (regimesFound data))
    as [bd ->].
  - intros regime _. unfold regimeResult, hsGroups.
    destruct (hsGroupsFrom_returns v (regimeItems data regime) []) as [g ->].
    + intros i Hi. apply H. unfold regimeItems in Hi.
      apply filter_In in Hi. tauto.
    + simpl. eauto.
  - simpl. eauto.
Qed.

(** An HS code that names a prototype member makes [push] fail. *)
Example calculateCustoms_throws :
  forall v,
    calculateCustoms v
      (InvoiceData.mk "F-1" "2024-01-01" "EUR" 10 1 0 "FOB" 5 SEA None
         [InvoiceItem.mk "x" 1 10 10 "023" "constructor" (Some 5) None None])
      11 = JS.TypeError.
Proof. intros []; reflexivity. Qed.

(* ================================================================== *)
(** ** Bucketing keeps every item exactly once *)
(* ================================================================== *)


Lemma push_fresh {V : Type} (groups : JS.Obj (list V)) key (x : V) :
  JS.getOwn groups key = None ->
  JS.push (groups ++ [(key, [])])%list key x = (groups ++ [(key, [x])])%list.
Proof.
  induction groups as [|[k ys] groups IH]; simpl; intros H.
  - now rewrite String.eqb_refl.
  - destruct (String.eqb k key); [discriminate|].
    now rewrite (IH H).
Qed.



Lemma insertByIndex_perm {V : Type} n (e : string * V) sorted :
  Permutation (JS.insertByIndex n e sorted) ((n, e) :: sorted).
Proof.
  induction sorted as [|[m e'] rest IH]; simpl.
  - apply Permutation_refl.
  - destruct (n <=? m)%N.
    + apply Permutation_refl.
    + eapply perm_trans; [apply perm_skip, IH|apply perm_swap].
Qed.

(** [Object.entries] lists every own property once. *)
Lemma Object_entries_perm {V : Type} (o : JS.Obj V) :
  Permutation (JS.Object_entries o) o.
Proof.
  unfold JS.Object_entries.
  induction o as [|[k x] o IH]; simpl.
  - apply Permutation_refl.
  - destruct (JS.arrayIndex k) as [n|].
    + eapply perm_trans.
      * apply Permutation_app_tail, Permutation_map, insertByIndex_perm.
      * simpl. now apply perm_skip.
    + apply Permutation_sym.
      eapply perm_trans; [|apply Permutation_middle].
      apply perm_skip. now apply Permutation_sym.
Qed.

Lemma Object_entries_In {V : Type} (o : JS.Obj V) e :
  In e (JS.Object_entries o) <-> In e o.
Proof.
  split; apply Permutation_in;
    [apply Object_entries_perm|apply Permutation_sym, Object_entries_perm].
Qed.


(** Buckets are never empty, so [items[0]] is always an item. *)
Lemma push_nonempty {V : Type} (groups : JS.Obj (list V)) key (x : V) :
  Forall (fun e => snd e <> []) groups ->
  Forall (fun e => snd e <> []) (JS.push groups key x).
Proof.
  induction 1 as [|[k ys] groups Hy Hg IH]; simpl; [constructor|].
  destruct (String.eqb k key); constructor; simpl; auto.
  now destruct ys.
Qed.

Lemma hsGroupsFrom_nonempty v items groups groups' :
  hsGroupsFrom v items groups = JS.Normal groups' ->
  Forall (fun e => snd e <> []) groups ->
  Forall (fun e => snd e <> []) groups'.
Proof.
  revert groups. induction items as [|i items IH]; intros groups H Hg;
    simpl in H.
  - now injection H as <-.
  - bind_inv H. apply (IH _ H).
    unfold hsGroupsStep, JS.get in E.
    destruct (JS.getOwn groups (hsKey v i)) eqn:Eo.
    + injection E as <-. now apply push_nonempty.
    + destruct (JS.inherited (hsKey v i)); [discriminate|].
      injection E as <-. rewrite (push_fresh _ _ _ Eo).
      apply Forall_app. split; [assumption|].
      constructor; [simpl; discriminate|constructor].
Qed.

Lemma hsGroups_nonempty v data regime entry :
  hsGroupOf v data regime entry -> snd entry <> [].
Proof.
  intros [groups [H Hin]]. apply (proj1 (Object_entries_In _ _)) in Hin.
  revert entry Hin. apply Forall_forall.
  apply (hsGroupsFrom_nonempty _ _ _ _ H). constructor.
Qed.

(** ** The sample reports *)

Example sampleReport_CFR v :
  calculateCustoms v invoiceCFR 11 = JS.Normal (sampleReport v invoiceCFR).
Proof. destruct v; reflexivity. Qed.

Example sampleReport_CIF v :
  calculateCustoms v invoiceCIF 11 = JS.Normal (sampleReport v invoiceCIF).
Proof. destruct v; reflexivity. Qed.

Example sampleReport_FOB v :
  calculateCustoms v invoiceFOB 11 = JS.Normal (sampleReport v invoiceFOB).
Proof. destruct v; reflexivity. Qed.

(* ================================================================== *)
(** ** Properties of the specification *)
(* ================================================================== *)

(** C1 (additivity).  In every report the engine returns, each regime's
    total valuation is the sum of the total valuations of its HS-code groups,
    and the report's grand total valuation is the sum of the regimes' total
    valuations.  Holds for both listings. *)
Theorem additivity v data rate res :
  calculateCustoms v data rate = JS.Normal res ->
  (forall r, In r (CustomsResult.breakdown res) ->
     RegimeResult.totalVAD r
     == sumQ (map HSCodeBreakdown.totalVAD (RegimeResult.hsCodeBreakdown r))) /\
  CustomsResult.totalVAD res
  == sumQ (map RegimeResult.totalVAD (CustomsResult.breakdown res)).
Proof.
  intros H. split.
  - intros r Hr.
    destruct (report_regime _ _ _ _ _ H Hr) as [_ [groups [_ Heq]]].
    rewrite Heq. simpl. apply reduce_sum0.
  - destruct (calculateCustoms_report _ _ _ _ H) as [bd [_ ->]].
    simpl. apply reduce_sum0.
Qed.

Lemma additivity_witness :
  calculateCustoms ListingB invoiceCFR 11
  = JS.Normal (sampleReport ListingB invoiceCFR) /\
  (forall r, In r (CustomsResult.breakdown (sampleReport ListingB invoiceCFR)) ->
     RegimeResult.totalVAD r
     == sumQ (map HSCodeBreakdown.totalVAD (RegimeResult.hsCodeBreakdown r))) /\
  CustomsResult.totalVAD (sampleReport ListingB invoiceCFR)
  == sumQ (map RegimeResult.totalVAD
             (CustomsResult.breakdown (sampleReport ListingB invoiceCFR))).
Proof.
  split; [reflexivity|].
  apply (additivity ListingB invoiceCFR 11). reflexivity.
Defined.

(** ** The Incoterm branch of a group's freight *)

Lemma fretHS_not_CFR v data rate regime items :
  isCFR v data = false ->
  fretHSValueForVAD v data rate regime items
  = globalFretRatio v data rate * weightHS regime items /\
  displayFretHS v data rate regime items
  = globalFretRatio v data rate * weightHS regime items.
Proof.
  intros H. unfold fretHSValueForVAD, displayFretHS, fretHS.
  rewrite H. now split.
Qed.

Lemma fretHS_CFR_023 v data rate items :
  isCFR v data = true ->
  fretHSValueForVAD v data rate "023" items
  = fretRatioFor023_CFR v data rate * weightHS "023" items /\
  displayFretHS v data rate "023" items
  = fretRatioFor023_CFR v data rate * weightHS "023" items.
Proof.
  intros H. unfold fretHSValueForVAD, displayFretHS, fretHS.
  rewrite H. now split.
Qed.

Lemma fretHS_CFR_other v data rate regime items :
  isCFR v data = true ->
  regime <> "023" ->
  fretHSValueForVAD v data rate regime items = 0 /\
  displayFretHS v data rate regime items
  = globalFretRatio v data rate * weightHS regime items.
Proof.
  intros H Hr. unfold fretHSValueForVAD, displayFretHS, fretHS.
  rewrite H. apply String.eqb_neq in Hr. rewrite Hr. now split.
Qed.

Lemma fretHS_shown v data rate regime items :
  isCFR v data = false \/ regime = "023" ->
  fretHSValueForVAD v data rate regime items
  = displayFretHS v data rate regime items.
Proof.
  intros [H| ->].
  - destruct (fretHS_not_CFR v data rate regime items H) as [-> ->].
    reflexivity.
  - destruct (isCFR v data) eqn:E.
    + destruct (fretHS_CFR_023 v data rate items E) as [-> ->]. reflexivity.
    + destruct (fretHS_not_CFR v data rate "023" items E) as [-> ->].
      reflexivity.
Qed.

Lemma isCFR_of_CFR v data :
  JS.toUpperCase (InvoiceData.incoterm data) = "CFR" -> isCFR v data = true.
Proof.
  intros H. unfold isCFR. rewrite H. now destruct v.
Qed.

(** C4 (report rollup), as amended.  The report's grand FOB is the invoice
    subtotal times the rate and its grand freight is the invoice freight times
    the rate: both are taken from the invoice header, not summed from the
    regimes.  Its grand insurance, handling and valuation are the sums of the
    regime totals.  The exchange rate and the Incoterm are copied through;
    the declared total gross weight is copied through unchanged, except that
    listing A reports 1 when the declared weight is 0. *)
Theorem report_rollup v data rate res :
  calculateCustoms v data rate = JS.Normal res ->
  CustomsResult.totalFobMAD res = InvoiceData.subtotal data * rate /\
  CustomsResult.totalFretMAD res = InvoiceData.fret data * rate /\
  CustomsResult.totalAssuranceMAD res
  == sumQ (map RegimeResult.assuranceValueMAD (CustomsResult.breakdown res)) /\
  CustomsResult.totalAconageMAD res
  == sumQ (map RegimeResult.aconageValueMAD (CustomsResult.breakdown res)) /\
  CustomsResult.totalVAD res
  == sumQ (map RegimeResult.totalVAD (CustomsResult.breakdown res)) /\
  CustomsResult.exchangeRate res = rate /\
  CustomsResult.incoterm res = InvoiceData.incoterm data /\
  (v = ListingB \/ ~ InvoiceData.totalWeightBrut data == 0 ->
   CustomsResult.totalWeightBrut res = InvoiceData.totalWeightBrut data) /\
  (v = ListingA -> InvoiceData.totalWeightBrut data == 0 ->
   CustomsResult.totalWeightBrut res = 1).
Proof.
  intros H.
  destruct (calculateCustoms_report _ _ _ _ H) as [bd [_ ->]]. simpl.
  repeat match goal with |- _ /\ _ => split end;
    try reflexivity; try apply reduce_sum0.
  - intros [-> | Hw]; unfold totalWeightBrut; [reflexivity|].
    destruct v; [now apply orNum_nonzero|reflexivity].
  - intros -> Hw. unfold totalWeightBrut. now apply orNum_zero.
Qed.

Lemma report_rollup_witness :
  CustomsResult.totalFobMAD (sampleReport ListingB invoiceFOB) = 1000 * 11 /\
  CustomsResult.totalFretMAD (sampleReport ListingB invoiceFOB) = 100 * 11 /\
  CustomsResult.totalWeightBrut (sampleReport ListingB invoiceFOB) = 500.
Proof.
  destruct (report_rollup ListingB invoiceFOB 11 (sampleReport ListingB invoiceFOB))
    as (Hfob & Hfret & _ & _ & _ & _ & _ & Hw & _).
  - reflexivity.
  - split; [exact Hfob|]. split; [exact Hfret|].
    apply Hw. now left.
Defined.

(** C4 as stated fails: on an FOB invoice whose line weighs 400 kg of the
    500 kg declared and is priced 900 of the 1000 subtotal, the grand FOB is
    11000 against regime FOB values summing to 9900, and the grand freight is
    1100 against regime freight values summing to 880. *)
Lemma report_rollup_counterexample :
  exists res,
    calculateCustoms ListingB invoiceNetBelowGross 11 = JS.Normal res /\
    ~ CustomsResult.totalFobMAD res
      == sumQ (map RegimeResult.fobValueMAD (CustomsResult.breakdown res)) /\
    ~ CustomsResult.totalFretMAD res
      == sumQ (map RegimeResult.fretValueMAD (CustomsResult.breakdown res)).
Proof.
  eexists. split; [reflexivity|]. split; differs.
Qed.

(** C6 (HS-group total), as amended.  The stored total valuation of every
    HS group is its stored FOB plus its valuation-contributing freight plus
    its stored insurance plus its stored handling.  The stored freight is the
    displayed figure: it is the valuation-contributing one, and the total is
    the sum of the four stored fields, when the Incoterm is not handled as CFR
    or the regime is "023"; for any other regime under CFR the
    valuation-contributing freight is 0 and the stored freight is left out of
    the total. *)
Theorem hs_group_total v data rate res r h :
  calculateCustoms v data rate = JS.Normal res ->
  In r (CustomsResult.breakdown res) ->
  In h (RegimeResult.hsCodeBreakdown r) ->
  (exists items,
     hsGroupOf v data (RegimeResult.regime r) (HSCodeBreakdown.hsCode h, items) /\
     HSCodeBreakdown.totalVAD h
     = HSCodeBreakdown.fobValueMAD h
       + fretHSValueForVAD v data rate (RegimeResult.regime r) items
       + HSCodeBreakdown.assuranceValueMAD h
       + HSCodeBreakdown.aconageValueMAD h) /\
  (isCFR v data = false \/ RegimeResult.regime r = "023" ->
   HSCodeBreakdown.totalVAD h
   = HSCodeBreakdown.fobValueMAD h + HSCodeBreakdown.fretValueMAD h
     + HSCodeBreakdown.assuranceValueMAD h + HSCodeBreakdown.aconageValueMAD h) /\
  (isCFR v data = true -> RegimeResult.regime r <> "023" ->
   HSCodeBreakdown.totalVAD h
   = HSCodeBreakdown.fobValueMAD h + 0
     + HSCodeBreakdown.assuranceValueMAD h + HSCodeBreakdown.aconageValueMAD h).
Proof.
  intros H Hr Hh.
  destruct (report_group _ _ _ _ _ _ H Hr Hh) as [items [Hg Heq]].
  split; [|split].
  - exists items. split; [assumption|]. rewrite Heq. reflexivity.
  - intros Hc. rewrite Heq. simpl.
    now rewrite (fretHS_shown v data rate _ items Hc).
  - intros Hc Hreg. rewrite Heq. simpl.
    destruct (fretHS_CFR_other v data rate _ items Hc Hreg) as [-> _].
    reflexivity.
Qed.

Lemma hs_group_total_witness :
  HSCodeBreakdown.totalVAD (packagingRow ListingB invoiceCFR)
  = HSCodeBreakdown.fobValueMAD (packagingRow ListingB invoiceCFR) + 0
    + HSCodeBreakdown.assuranceValueMAD (packagingRow ListingB invoiceCFR)
    + HSCodeBreakdown.aconageValueMAD (packagingRow ListingB invoiceCFR).
Proof.
  destruct (hs_group_total ListingB invoiceCFR 11 (sampleReport ListingB invoiceCFR)
              (packagingRegime ListingB invoiceCFR)
              (packagingRow ListingB invoiceCFR)) as (_ & _ & Hcfr).
  - reflexivity.
  - right; left; reflexivity.
  - left; reflexivity.
  - apply Hcfr; [reflexivity|discriminate].
Defined.

(** C6 as stated fails: under CFR the packaging group of regime "312" stores
    a displayed freight of 154 that its total valuation does not include. *)
Lemma hs_group_total_counterexample :
  calculateCustoms ListingB invoiceCFR 11
  = JS.Normal (sampleReport ListingB invoiceCFR) /\
  In (packagingRegime ListingB invoiceCFR)
    (CustomsResult.breakdown (sampleReport ListingB invoiceCFR)) /\
  In (packagingRow ListingB invoiceCFR)
    (RegimeResult.hsCodeBreakdown (packagingRegime ListingB invoiceCFR)) /\
  HSCodeBreakdown.fretValueMAD (packagingRow ListingB invoiceCFR) == 154 /\
  ~ HSCodeBreakdown.totalVAD (packagingRow ListingB invoiceCFR)
    == HSCodeBreakdown.fobValueMAD (packagingRow ListingB invoiceCFR)
       + HSCodeBreakdown.fretValueMAD (packagingRow ListingB invoiceCFR)
       + HSCodeBreakdown.assuranceValueMAD (packagingRow ListingB invoiceCFR)
       + HSCodeBreakdown.aconageValueMAD (packagingRow ListingB invoiceCFR).
Proof.
  split; [reflexivity|].
  split; [right; left; reflexivity|].
  split; [left; reflexivity|].
  split; [reflexivity|differs].
Qed.

Lemma weightHS_312 items :
  weightHS "312" items == boxCount items * 2 + palletCount items * 25.
Proof.
  change (weightHS "312" items)
    with (JS.reduce
            (fun sum i => sum + JS.orOpt (InvoiceItem.packagingCaisses i) 0)
            items 0 * 2
          + JS.reduce
              (fun sum i => sum + JS.orOpt (InvoiceItem.packagingPalettes i) 0)
              items 0 * 25).
  rewrite !reduce_sum0. unfold boxCount, palletCount.
  rewrite (sumQ_ext (fun i => JS.orOpt (InvoiceItem.packagingCaisses i) 0)
             (fun i => match InvoiceItem.packagingCaisses i with
                       | Some c => c
                       | None => 0
                       end)) by (intros; apply orOpt_count).
  rewrite (sumQ_ext (fun i => JS.orOpt (InvoiceItem.packagingPalettes i) 0)
             (fun i => match InvoiceItem.packagingPalettes i with
                       | Some p => p
                       | None => 0
                       end)) by (intros; apply orOpt_count).
  reflexivity.
Qed.

(** C8 (packaging weight formula).  In every report, the gross weight of an
    HS group of regime "312" is the number of boxes of the group's items
    times 2 plus their number of pallets times 25, a missing count being 0.
    Holds for both listings. *)
Theorem packaging_weight v data rate res r h :
  calculateCustoms v data rate = JS.Normal res ->
  In r (CustomsResult.breakdown res) ->
  RegimeResult.regime r = "312" ->
  In h (RegimeResult.hsCodeBreakdown r) ->
  exists items,
    hsGroupOf v data "312" (HSCodeBreakdown.hsCode h, items) /\
    HSCodeBreakdown.weightBrut h
    == boxCount items * 2 + palletCount items * 25.
Proof.
  intros H Hr Hreg Hh.
  destruct (report_group _ _ _ _ _ _ H Hr Hh) as [items [Hg Heq]].
  rewrite Hreg in Hg, Heq.
  exists items. split; [assumption|].
  rewrite Heq. simpl. apply weightHS_312.
Qed.

(** The group of the specification's example: 10 boxes and 2 pallets weigh
    10 * 2 + 2 * 25 = 70. *)
Lemma packaging_weight_witness :
  exists items,
    hsGroupOf ListingB invoiceCFR "312" ("PKG", items) /\
    HSCodeBreakdown.weightBrut (packagingRow ListingB invoiceCFR)
    == boxCount items * 2 + palletCount items * 25.
Proof.
  apply (packaging_weight ListingB invoiceCFR 11 (sampleReport ListingB invoiceCFR)
           (packagingRegime ListingB invoiceCFR)
           (packagingRow ListingB invoiceCFR)).
  - reflexivity.
  - right; left; reflexivity.
  - reflexivity.
  - left; reflexivity.
Defined.

Example ten_boxes_two_pallets v :
  boxCount [samplePackaging] == 10 /\
  palletCount [samplePackaging] == 2 /\
  HSCodeBreakdown.weightBrut (packagingRow v invoiceCFR) == 70.
Proof. destruct v; repeat split. Qed.

(** C9 (end-to-end scenario).  For the invoice with subtotal 1000, freight
    100, Incoterm "FOB", total gross weight 500 and a single regime-"023"
    item with net weight 500, total price 1000 and HS code "HS1", at rate 11,
    whatever its other fields are, the engine returns a report with one
    regime holding one group; the freight ratio is 2.2, the group has FOB
    11000, freight 1100, insurance 60.5, handling 2300 and total valuation
    14460.5, and the grand total valuation is 14460.5.  Holds for both
    listings. *)
Theorem end_to_end v invoiceNumber date currency assurance transportMethod
        originCountry description quantity unitPrice caisses palettes :
  let item := InvoiceItem.mk description quantity unitPrice 1000 "023" "HS1"
                (Some 500) caisses palettes in
  let data := InvoiceData.mk invoiceNumber date currency 1000 100 assurance
                "FOB" 500 transportMethod originCountry [item] in
  exists res r h,
    calculateCustoms v data 11 = JS.Normal res /\
    CustomsResult.breakdown res = [r] /\
    RegimeResult.regime r = "023" /\
    RegimeResult.hsCodeBreakdown r = [h] /\
    HSCodeBreakdown.hsCode h = "HS1" /\
    globalFretRatio v data 11 == 2.2 /\
    HSCodeBreakdown.fobValueMAD h == 11000 /\
    HSCodeBreakdown.fretValueMAD h == 1100 /\
    fretHSValueForVAD v data 11 "023" [item] == 1100 /\
    HSCodeBreakdown.assuranceValueMAD h == 60.5 /\
    HSCodeBreakdown.aconageValueMAD h == 2300 /\
    HSCodeBreakdown.totalVAD h == 14460.5 /\
    RegimeResult.totalVAD r == 14460.5 /\
    CustomsResult.totalVAD res == 14460.5 /\
    CustomsResult.totalVAD res == HSCodeBreakdown.totalVAD h.
Proof.
  intros item data.
  exists (reportOf v data 11 [regimeResultOf v data 11 "023" [("HS1", [item])]]).
  exists (regimeResultOf v data 11 "023" [("HS1", [item])]).
  exists (hsCodeEntry v data 11 "023" ("HS1", [item])).
  destruct v;
    repeat match goal with |- _ /\ _ => split end; reflexivity.
Qed.

Lemma isCFR_false v data :
  JS.toUpperCase (InvoiceData.incoterm data) <> "CFR" ->
  (v = ListingA -> JS.toUpperCase (InvoiceData.incoterm data) <> "CIF") ->
  isCFR v data = false.
Proof.
  intros Hcfr Hcif. unfold isCFR.
  apply String.eqb_neq in Hcfr. rewrite Hcfr.
  destruct v; [|reflexivity].
  specialize (Hcif eq_refl). apply String.eqb_neq in Hcif. now rewrite Hcif.
Qed.

(** C7 (freight outside CFR), as amended.  In every report for an invoice
    whose Incoterm is not CFR (case-insensitive) - and, in listing A, which
    handles CIF like CFR, not CIF either - every HS group's
    valuation-contributing freight equals its displayed freight, namely the
    global freight-per-kilogram ratio times the group's gross weight.  In
    listing B this covers CIF, EXW, FOB and any other value. *)
Theorem non_cfr_freight v data rate res r h :
  JS.toUpperCase (InvoiceData.incoterm data) <> "CFR" ->
  (v = ListingA -> JS.toUpperCase (InvoiceData.incoterm data) <> "CIF") ->
  calculateCustoms v data rate = JS.Normal res ->
  In r (CustomsResult.breakdown res) ->
  In h (RegimeResult.hsCodeBreakdown r) ->
  exists items,
    hsGroupOf v data (RegimeResult.regime r) (HSCodeBreakdown.hsCode h, items) /\
    fretHSValueForVAD v data rate (RegimeResult.regime r) items
    = HSCodeBreakdown.fretValueMAD h /\
    HSCodeBreakdown.fretValueMAD h
    = globalFretRatio v data rate * HSCodeBreakdown.weightBrut h.
Proof.
  intros Hcfr Hcif H Hr Hh.
  destruct (report_group _ _ _ _ _ _ H Hr Hh) as [items [Hg Heq]].
  exists items. split; [assumption|].
  pose proof (isCFR_false v data Hcfr Hcif) as Hc.
  destruct (fretHS_not_CFR v data rate (RegimeResult.regime r) items Hc)
    as [Hval Hshow].
  rewrite Heq. simpl. split; congruence.
Qed.

Lemma non_cfr_freight_witness :
  exists items,
    hsGroupOf ListingB invoiceCIF "312" ("PKG", items) /\
    fretHSValueForVAD ListingB invoiceCIF 11 "312" items
    = HSCodeBreakdown.fretValueMAD (packagingRow ListingB invoiceCIF) /\
    HSCodeBreakdown.fretValueMAD (packagingRow ListingB invoiceCIF)
    = globalFretRatio ListingB invoiceCIF 11
      * HSCodeBreakdown.weightBrut (packagingRow ListingB invoiceCIF).
Proof.
  apply (non_cfr_freight ListingB invoiceCIF 11 (sampleReport ListingB invoiceCIF)
           (packagingRegime ListingB invoiceCIF)
           (packagingRow ListingB invoiceCIF)).
  - discriminate.
  - discriminate.
  - reflexivity.
  - right; left; reflexivity.
  - left; reflexivity.
Defined.

(** C7 as stated fails in listing A, whose [isCFR] is also true for CIF: on
    the CIF invoice the packaging group of regime "312" shows a freight of
    154 while its valuation-contributing freight is 0. *)
Lemma non_cfr_freight_counterexample :
  JS.toUpperCase (InvoiceData.incoterm invoiceCIF) <> "CFR" /\
  calculateCustoms ListingA invoiceCIF 11
  = JS.Normal (sampleReport ListingA invoiceCIF) /\
  In (packagingRegime ListingA invoiceCIF)
    (CustomsResult.breakdown (sampleReport ListingA invoiceCIF)) /\
  In (packagingRow ListingA invoiceCIF)
    (RegimeResult.hsCodeBreakdown (packagingRegime ListingA invoiceCIF)) /\
  hsGroupOf ListingA invoiceCIF "312" ("PKG", [samplePackaging]) /\
  fretHSValueForVAD ListingA invoiceCIF 11 "312" [samplePackaging] == 0 /\
  HSCodeBreakdown.fretValueMAD (packagingRow ListingA invoiceCIF) == 154 /\
  ~ fretHSValueForVAD ListingA invoiceCIF 11 "312" [samplePackaging]
    == HSCodeBreakdown.fretValueMAD (packagingRow ListingA invoiceCIF).
Proof.
  split; [discriminate|].
  split; [reflexivity|].
  split; [right; left; reflexivity|].
  split; [left; reflexivity|].
  split; [exists [("PKG", [samplePackaging])]; split;
          [reflexivity|left; reflexivity]|].
  split; [reflexivity|].
  split; [reflexivity|differs].
Qed.

(** C3 (zero-weight safety), as amended.  For every invoice whose declared
    total gross weight is 0: in listing B the freight and handling ratios are
    both 0, every group's handling is 0, and every group's freight, displayed
    and valuation-contributing, is 0 unless the Incoterm is CFR and the
    regime is "023", where the group still receives the regime-"023" ratio
    times its weight; listing A replaces the zero weight by 1 and divides
    by it, so its ratios are the total freight in MAD and the fixed handling
    amount. *)
Theorem zero_weight_safety data rate regime items :
  InvoiceData.totalWeightBrut data == 0 ->
  (globalFretRatio ListingB data rate = 0 /\
   globalAconageRatio ListingB data = 0 /\
   aconageHS ListingB data regime items == 0 /\
   (isCFR ListingB data = false \/ regime <> "023" ->
    fretHSValueForVAD ListingB data rate regime items == 0 /\
    displayFretHS ListingB data rate regime items == 0) /\
   (isCFR ListingB data = true ->
    fretHSValueForVAD ListingB data rate "023" items
    = fretRatioFor023_CFR ListingB data rate * weightHS "023" items /\
    displayFretHS ListingB data rate "023" items
    = fretRatioFor023_CFR ListingB data rate * weightHS "023" items)) /\
  (totalWeightBrut ListingA data = 1 /\
   globalFretRatio ListingA data rate == totalFretMAD data rate /\
   globalAconageRatio ListingA data == ACONAGE_FIXED_MAD).
Proof.
  intros Hw.
  assert (Hratio : globalFretRatio ListingB data rate = 0).
  { unfold globalFretRatio, totalWeightBrut.
    replace (JS.gt (InvoiceData.totalWeightBrut data) 0) with false;
      [reflexivity|].
    symmetry. apply gt_false. rewrite Hw. apply Qle_refl. }
  assert (Hacon : globalAconageRatio ListingB data = 0).
  { unfold globalAconageRatio, totalWeightBrut.
    replace (JS.gt (InvoiceData.totalWeightBrut data) 0) with false;
      [reflexivity|].
    symmetry. apply gt_false. rewrite Hw. apply Qle_refl. }
  split; [split; [exact Hratio|split; [exact Hacon|split; [|split]]]|].
  - unfold aconageHS. rewrite Hacon. ring.
  - intros [Hc|Hreg].
    + destruct (fretHS_not_CFR ListingB data rate regime items Hc) as [-> ->].
      rewrite Hratio. split; ring.
    + destruct (isCFR ListingB data) eqn:Hc.
      * destruct (fretHS_CFR_other ListingB data rate regime items Hc Hreg)
          as [-> ->].
        rewrite Hratio. split; ring.
      * destruct (fretHS_not_CFR ListingB data rate regime items Hc) as [-> ->].
        rewrite Hratio. split; ring.
  - intros Hc. exact (fretHS_CFR_023 ListingB data rate items Hc).
  - assert (H1 : totalWeightBrut ListingA data = 1)
      by (unfold totalWeightBrut; now apply orNum_zero).
    split; [exact H1|].
    unfold globalFretRatio, globalAconageRatio. rewrite H1.
    split; field.
Qed.

Lemma zero_weight_safety_witness :
  globalFretRatio ListingB invoiceNoGrossWeight 11 = 0 /\
  globalAconageRatio ListingB invoiceNoGrossWeight = 0 /\
  totalWeightBrut ListingA invoiceNoGrossWeight = 1.
Proof.
  destruct (zero_weight_safety invoiceNoGrossWeight 11 "023" [sampleGoods])
    as [(Hf & Ha & _) (H1 & _)].
  - reflexivity.
  - split; [exact Hf|]. split; [exact Ha|exact H1].
Defined.

(** C3 as stated fails: on a CFR invoice that declares a total gross weight
    of 0, the regime-"023" group of 500 kg net still receives the whole
    freight, 1100, both as displayed and as valuation-contributing freight. *)
Lemma zero_weight_safety_counterexample :
  InvoiceData.totalWeightBrut invoiceNoGrossWeight == 0 /\
  calculateCustoms ListingB invoiceNoGrossWeight 11
  = JS.Normal (reportOf ListingB invoiceNoGrossWeight 11
                 [goodsRegime ListingB invoiceNoGrossWeight]) /\
  In (goodsRow ListingB invoiceNoGrossWeight)
    (RegimeResult.hsCodeBreakdown (goodsRegime ListingB invoiceNoGrossWeight)) /\
  HSCodeBreakdown.fretValueMAD (goodsRow ListingB invoiceNoGrossWeight) == 1100 /\
  fretHSValueForVAD ListingB invoiceNoGrossWeight 11 "023" [sampleGoods] == 1100 /\
  ~ fretHSValueForVAD ListingB invoiceNoGrossWeight 11 "023" [sampleGoods] == 0.
Proof.
  split; [reflexivity|].
  split; [reflexivity|].
  split; [left; reflexivity|].
  split; [reflexivity|].
  split; [reflexivity|differs].
Qed.

(** ** The regime-"023" freight ratio *)

Lemma netWeightHS_sum items :
  netWeightHS items
  == sumQ (map (fun i => JS.orOpt (InvoiceItem.weightNet i) 0) items).
Proof. unfold netWeightHS. apply reduce_sum0. Qed.

Lemma fretRatioFor023_CFR_positive v data rate :
  0 < weight023Sum data ->
  fretRatioFor023_CFR v data rate = totalFretMAD data rate / weight023Sum data.
Proof.
  intros Hpos. unfold fretRatioFor023_CFR, weight023Total. destruct v.
  - rewrite orNum_nonzero; [reflexivity|].
    intros Hz. rewrite Hz in Hpos. exact (Qlt_irrefl 0 Hpos).
  - now rewrite (proj2 (gt_true _ _) Hpos).
Qed.

(** C2 (CFR exclusivity), as amended.  For every invoice whose Incoterm is
    CFR (case-insensitive): the valuation-contributing freight of every HS
    group of a regime other than "023" is 0, and so is their sum; and the
    valuation-contributing freight of every regime-"023" group is the
    regime-"023" freight ratio times the group's net weight.  That ratio is
    the total freight in MAD divided by the total net weight of the
    regime-"023" items when this weight is positive.  When it is not, the
    ratio is 0 in listing B; in listing A it is the total freight divided by
    1 for a weight of 0, and by the weight itself for a negative one. *)
Theorem cfr_exclusivity v data rate regime groups :
  JS.toUpperCase (InvoiceData.incoterm data) = "CFR" ->
  hsGroups v data regime = JS.Normal groups ->
  (regime <> "023" ->
   (forall e, In e (JS.Object_entries groups) ->
      fretHSValueForVAD v data rate regime (snd e) = 0) /\
   sumQ (map (fun e => fretHSValueForVAD v data rate regime (snd e))
           (JS.Object_entries groups)) == 0) /\
  (regime = "023" ->
   forall e, In e (JS.Object_entries groups) ->
     fretHSValueForVAD v data rate regime (snd e)
     = fretRatioFor023_CFR v data rate * netWeightHS (snd e)) /\
  (0 < weight023Sum data \/ (v = ListingA /\ ~ weight023Sum data == 0) ->
   fretRatioFor023_CFR v data rate
   = totalFretMAD data rate / weight023Sum data) /\
  (v = ListingB -> weight023Sum data <= 0 ->
   fretRatioFor023_CFR v data rate = 0) /\
  (v = ListingA -> weight023Sum data == 0 ->
   fretRatioFor023_CFR v data rate = totalFretMAD data rate / 1).
Proof.
  intros Hcfr Hg. apply (isCFR_of_CFR v) in Hcfr.
  split; [|split; [|split; [|split]]].
  - intros Hreg.
    assert (Hzero : forall e, In e (JS.Object_entries groups) ->
              fretHSValueForVAD v data rate regime (snd e) = 0).
    { intros e _.
      now destruct (fretHS_CFR_other v data rate regime (snd e) Hcfr Hreg). }
    split; [exact Hzero|].
    apply sumQ_zero. intros e He. now rewrite (Hzero e He).
  - intros -> e _.
    now destruct (fretHS_CFR_023 v data rate (snd e) Hcfr) as [-> _].
  - intros [Hpos|[-> Hnz]].
    + now apply fretRatioFor023_CFR_positive.
    + unfold fretRatioFor023_CFR, weight023Total.
      now rewrite (orNum_nonzero _ 1 Hnz).
  - intros -> Hle. unfold fretRatioFor023_CFR, weight023Total.
    now rewrite (proj2 (gt_false _ _) Hle).
  - intros -> Hz. unfold fretRatioFor023_CFR, weight023Total.
    now rewrite (orNum_zero _ 1 Hz).
Qed.

Lemma cfr_exclusivity_witness :
  (forall e, In e (JS.Object_entries [("HS1", [sampleGoods])]) ->
     fretHSValueForVAD ListingB invoiceCFR 11 "023" (snd e)
     = fretRatioFor023_CFR ListingB invoiceCFR 11 * netWeightHS (snd e)) /\
  fretRatioFor023_CFR ListingB invoiceCFR 11
  = totalFretMAD invoiceCFR 11 / weight023Sum invoiceCFR.
Proof.
  destruct (cfr_exclusivity ListingB invoiceCFR 11 "023" [("HS1", [sampleGoods])])
    as (_ & H023 & Hratio & _).
  - reflexivity.
  - reflexivity.
  - split.
    + apply H023. reflexivity.
    + apply Hratio. left. reflexivity.
Defined.

(** C2 as stated fails on the numbers the code computes with.  On a CFR
    invoice with 100 of freight at rate 11 and two regime-"023" groups of
    400 kg and 100 kg, the groups carry (1100 / 500) * 400 =
    880.0000000000001 and (1100 / 500) * 100 = 220.00000000000003, while the
    total freight times the groups' shares of the net weight is
    1100 * (400 / 500) = 880 and 1100 * (100 / 500) = 220.  And when the
    regime-"023" lines carry no net weight the share 0 / 0 is not a number,
    while the group's freight is 0. *)
Lemma cfr_exclusivity_counterexample :
  JS.toUpperCase (Double.InvoiceData.incoterm (Double.invoiceTwoGroups "CFR"))
  = "CFR" /\
  Double.hsGroups ListingB (Double.invoiceTwoGroups "CFR") "023"
  = JS.Normal [("HS1", [Double.goods400]); ("HS2", [Double.goods100])] /\
  Double.fretHSValueForVAD ListingB (Double.invoiceTwoGroups "CFR") 11 "023"
    [Double.goods400] = 880.0000000000001%float /\
  Double.fretHSValueForVAD ListingB (Double.invoiceTwoGroups "CFR") 11 "023"
    [Double.goods100] = 220.00000000000003%float /\
  (Double.totalFretMAD (Double.invoiceTwoGroups "CFR") 11
   * (Double.netWeightHS [Double.goods400]
      / Double.weight023Sum (Double.invoiceTwoGroups "CFR")))%float
  = 880%float /\
  (Double.totalFretMAD (Double.invoiceTwoGroups "CFR") 11
   * (Double.netWeightHS [Double.goods100]
      / Double.weight023Sum (Double.invoiceTwoGroups "CFR")))%float
  = 220%float /\
  PrimFloat.eqb
    (Double.fretHSValueForVAD ListingB (Double.invoiceTwoGroups "CFR") 11 "023"
       [Double.goods400])
    (Double.totalFretMAD (Double.invoiceTwoGroups "CFR") 11
     * (Double.netWeightHS [Double.goods400]
        / Double.weight023Sum (Double.invoiceTwoGroups "CFR")))%float
  = false /\
  PrimFloat.eqb
    (Double.fretHSValueForVAD ListingA (Double.invoiceTwoGroups "CFR") 11 "023"
       [Double.goods400])
    (Double.totalFretMAD (Double.invoiceTwoGroups "CFR") 11
     * (Double.netWeightHS [Double.goods400]
        / Double.weight023Sum (Double.invoiceTwoGroups "CFR")))%float
  = false /\
  Double.hsGroups ListingB Double.invoiceNoNetWeight "023"
  = JS.Normal [("HS1", [Double.goodsUnweighed])] /\
  Double.fretHSValueForVAD ListingB Double.invoiceNoNetWeight 11 "023"
    [Double.goodsUnweighed] = 0%float /\
  PrimFloat.is_nan
    (Double.totalFretMAD Double.invoiceNoNetWeight 11
     * (Double.netWeightHS [Double.goodsUnweighed]
        / Double.weight023Sum Double.invoiceNoNetWeight))%float
  = true.
Proof. repeat split; reflexivity. Qed.

(** ** The regime rollup of freight *)

Lemma rows_sum v data rate regime (f : HSCodeBreakdown.t -> Q) entries :
  JS.reduce (fun s h => s + f h) (map (hsCodeEntry v data rate regime) entries) 0
  == sumQ (map (fun e => f (hsCodeEntry v data rate regime e)) entries).
Proof. rewrite reduce_sum0, map_map. reflexivity. Qed.

Lemma regime_groups v data rate res r groups :
  calculateCustoms v data rate = JS.Normal res ->
  In r (CustomsResult.breakdown res) ->
  hsGroups v data (RegimeResult.regime r) = JS.Normal groups ->
  r = regimeResultOf v data rate (RegimeResult.regime r) groups.
Proof.
  intros H Hr Hg.
  destruct (report_regime _ _ _ _ _ H Hr) as [_ [groups' [Hg' Heq]]].
  rewrite Hg in Hg'. injection Hg' as <-. exact Heq.
Qed.

(** C5 (regime freight rollup), as amended.  Listing B does not sum a
    regime's freight value from its HS groups.  Under CFR it is 0 for every
    regime other than "023", which is the sum of its groups'
    valuation-contributing freight, all 0, and it is the whole freight of the
    invoice in MAD for regime "023"; outside CFR it is the freight ratio
    times the regime's gross weight.  In listing A, a regime's freight value
    is the sum of its groups' displayed freight figures; that is the sum of
    the valuation-contributing freight when the Incoterm is not handled as
    CFR or the regime is "023". *)
Theorem regime_freight_rollup v data rate res r groups :
  calculateCustoms v data rate = JS.Normal res ->
  In r (CustomsResult.breakdown res) ->
  hsGroups v data (RegimeResult.regime r) = JS.Normal groups ->
  let valuation :=
    sumQ (map (fun e => fretHSValueForVAD v data rate (RegimeResult.regime r) (snd e))
            (JS.Object_entries groups)) in
  let displayed :=
    sumQ (map (fun e => displayFretHS v data rate (RegimeResult.regime r) (snd e))
            (JS.Object_entries groups)) in
  (v = ListingB -> isCFR v data = true -> RegimeResult.regime r <> "023" ->
   RegimeResult.fretValueMAD r = 0 /\ valuation == 0) /\
  (v = ListingB -> isCFR v data = true -> RegimeResult.regime r = "023" ->
   RegimeResult.fretValueMAD r = totalFretMAD data rate) /\
  (v = ListingB -> isCFR v data = false ->
   RegimeResult.fretValueMAD r
   = globalFretRatio v data rate * RegimeResult.weightBrut r) /\
  (v = ListingA -> RegimeResult.fretValueMAD r == displayed) /\
  (v = ListingA ->
   isCFR v data = false \/ RegimeResult.regime r = "023" ->
   RegimeResult.fretValueMAD r == valuation).
Proof.
  intros H Hr Hg valuation displayed.
  pose proof (regime_groups v data rate res r groups H Hr Hg) as Heq.
  set (regime := RegimeResult.regime r) in *.
  assert (Hshown : RegimeResult.fretValueMAD r
                   = fretRegimeForVAD v data rate regime
                       (RegimeResult.hsCodeBreakdown r)
                       (RegimeResult.weightBrut r))
    by (rewrite Heq; reflexivity).
  assert (Hrows : RegimeResult.hsCodeBreakdown r
                  = map (hsCodeEntry v data rate regime)
                      (JS.Object_entries groups))
    by (rewrite Heq; reflexivity).
  assert (HlistA : v = ListingA -> RegimeResult.fretValueMAD r == displayed).
  { intros ->. rewrite Hshown, Hrows. unfold fretRegimeForVAD.
    rewrite rows_sum. apply sumQ_ext. now intros [k items] _. }
  split; [|split; [|split; [|split; [exact HlistA|]]]].
  - intros -> Hc Hreg. split.
    + rewrite Hshown. unfold fretRegimeForVAD.
      apply String.eqb_neq in Hreg. now rewrite Hreg, Hc.
    + apply sumQ_zero. intros e _.
      now destruct (fretHS_CFR_other ListingB data rate regime (snd e) Hc Hreg)
        as [-> _].
  - intros -> Hc Hreg. rewrite Hshown. unfold fretRegimeForVAD.
    apply String.eqb_eq in Hreg. now rewrite Hreg, Hc.
  - intros -> Hc. rewrite Hshown. unfold fretRegimeForVAD.
    now rewrite Hc, andb_false_r.
  - intros Hv Hcase. rewrite (HlistA Hv). unfold displayed, valuation.
    apply sumQ_ext. intros e _.
    now rewrite (fretHS_shown v data rate regime (snd e) Hcase).
Qed.

Lemma regime_freight_rollup_witness :
  RegimeResult.fretValueMAD (goodsRegime ListingB invoiceCFR)
  = totalFretMAD invoiceCFR 11 /\
  RegimeResult.fretValueMAD (packagingRegime ListingB invoiceCFR) = 0 /\
  sumQ (map (fun e => fretHSValueForVAD ListingB invoiceCFR 11 "312" (snd e))
          (JS.Object_entries [("PKG", [samplePackaging])])) == 0.
Proof.
  split.
  - destruct (regime_freight_rollup ListingB invoiceCFR 11
                (sampleReport ListingB invoiceCFR)
                (goodsRegime ListingB invoiceCFR) [("HS1", [sampleGoods])])
      as (_ & HB & _).
    + reflexivity.
    + left; reflexivity.
    + reflexivity.
    + apply HB; reflexivity.
  - destruct (regime_freight_rollup ListingB invoiceCFR 11
                (sampleReport ListingB invoiceCFR)
                (packagingRegime ListingB invoiceCFR) [("PKG", [samplePackaging])])
      as (HB & _).
    + reflexivity.
    + right; left; reflexivity.
    + reflexivity.
    + apply HB; [reflexivity|reflexivity|discriminate].
Defined.

(** C5 as stated fails in listing A, which rolls up the displayed figures:
    on the CFR invoice the regime "312" reports a freight value of 154 while
    the valuation-contributing freight of its only group is 0. *)
Lemma regime_freight_rollup_counterexample :
  JS.toUpperCase (InvoiceData.incoterm invoiceCFR) = "CFR" /\
  calculateCustoms ListingA invoiceCFR 11
  = JS.Normal (sampleReport ListingA invoiceCFR) /\
  In (packagingRegime ListingA invoiceCFR)
    (CustomsResult.breakdown (sampleReport ListingA invoiceCFR)) /\
  RegimeResult.regime (packagingRegime ListingA invoiceCFR) = "312" /\
  hsGroups ListingA invoiceCFR "312" = JS.Normal [("PKG", [samplePackaging])] /\
  sumQ (map (fun e => fretHSValueForVAD ListingA invoiceCFR 11 "312" (snd e))
          (JS.Object_entries [("PKG", [samplePackaging])])) == 0 /\
  RegimeResult.fretValueMAD (packagingRegime ListingA invoiceCFR) == 154 /\
  ~ RegimeResult.fretValueMAD (packagingRegime ListingA invoiceCFR)
    == sumQ (map (fun e => fretHSValueForVAD ListingA invoiceCFR 11 "312" (snd e))
               (JS.Object_entries [("PKG", [samplePackaging])])) /\
  ~ RegimeResult.fretValueMAD (packagingRegime ListingA invoiceCFR) == 0.
Proof.
  split; [reflexivity|].
  split; [reflexivity|].
  split; [right; left; reflexivity|].
  split; [reflexivity|].
  split; [reflexivity|].
  split; [reflexivity|].
  split; [reflexivity|].
  split; differs.
Qed.

(** In listing B, under CFR, the regime "023" reports the whole freight
    even when its items carry no net weight, although its groups then
    contribute no freight to the valuation. *)
Example no_net_weight_rollup :
  let row := hsCodeEntry ListingB invoiceNoNetWeight 11 "023"
               ("HS1", InvoiceData.items invoiceNoNetWeight) in
  let regime := regimeResultOf ListingB invoiceNoNetWeight 11 "023"
                  [("HS1", InvoiceData.items invoiceNoNetWeight)] in
  calculateCustoms ListingB invoiceNoNetWeight 11
  = JS.Normal (reportOf ListingB invoiceNoNetWeight 11 [regime]) /\
  RegimeResult.hsCodeBreakdown regime = [row] /\
  fretHSValueForVAD ListingB invoiceNoNetWeight 11 "023"
    (InvoiceData.items invoiceNoNetWeight) == 0 /\
  RegimeResult.fretValueMAD regime == 1100.
Proof. repeat split; reflexivity. Qed.

(** ** The engine on binary64 numbers, at work *)

(** Listing B, outside CFR.  On an FOB invoice with 100 of freight at rate
    11 and two regime-"023" groups of 400 kg and 100 kg, the regime's stored
    freight value is 2.2 * 500 = 1100, while its rows carry
    880.0000000000001 and 220.00000000000003, which add up to
    1100.0000000000002; and the handling of the rows, 1839.9999999999998 and
    459.99999999999994, adds up to 2299.9999999999995. *)
Example rollup_last_digit :
  exists res r h1 h2,
    Double.calculateCustoms ListingB (Double.invoiceTwoGroups "FOB") 11%float
    = JS.Normal res /\
    Double.CustomsResult.breakdown res = [r] /\
    Double.RegimeResult.hsCodeBreakdown r = [h1; h2] /\
    Double.RegimeResult.fretValueMAD r = 1100%float /\
    Double.HSCodeBreakdown.fretValueMAD h1 = 880.0000000000001%float /\
    Double.HSCodeBreakdown.fretValueMAD h2 = 220.00000000000003%float /\
    (0 + Double.HSCodeBreakdown.fretValueMAD h1
     + Double.HSCodeBreakdown.fretValueMAD h2)%float
    = 1100.0000000000002%float /\
    Double.HSCodeBreakdown.aconageValueMAD h1 = 1839.9999999999998%float /\
    Double.HSCodeBreakdown.aconageValueMAD h2 = 459.99999999999994%float /\
    Double.CustomsResult.totalAconageMAD res = 2299.9999999999995%float.
Proof.
  do 4 eexists. split; [vm_compute; reflexivity|].
  repeat split; reflexivity.
Qed.

(** The end-to-end scenario of the specification: its figures come out
    exactly on binary64 numbers, in both listings. *)
Example scenario_binary64 :
  forall v, exists res r h,
    Double.calculateCustoms v Double.invoiceScenario 11%float = JS.Normal res /\
    Double.CustomsResult.breakdown res = [r] /\
    Double.RegimeResult.hsCodeBreakdown r = [h] /\
    Double.globalFretRatio v Double.invoiceScenario 11%float = 2.2%float /\
    Double.HSCodeBreakdown.fobValueMAD h = 11000%float /\
    Double.HSCodeBreakdown.fretValueMAD h = 1100%float /\
    Double.HSCodeBreakdown.assuranceValueMAD h = 60.5%float /\
    Double.HSCodeBreakdown.aconageValueMAD h = 2300%float /\
    Double.HSCodeBreakdown.totalVAD h = 14460.5%float /\
    Double.CustomsResult.totalVAD res = 14460.5%float.
Proof.
  intros []; do 3 eexists; (split; [vm_compute; reflexivity|]);
    repeat split; reflexivity.
Qed.

(* ================================================================== *)
(** ** Inputs the engine never reads *)
(* ================================================================== *)

Lemma scrub_same d1 d2 : sameButUnused d1 d2 -> scrub d1 = scrub d2.
Proof.
  destruct d1 as [n1 da1 c1 s1 f1 a1 i1 w1 t1 o1 l1],
           d2 as [n2 da2 c2 s2 f2 a2 i2 w2 t2 o2 l2].
  unfold sameButUnused, scrub. simpl.
  intros (-> & -> & -> & -> & -> & -> & -> & -> & -> & Hl).
  f_equal. induction Hl as [|i j l l' Hij _ IH]; simpl; [reflexivity|].
  rewrite IH. f_equal.
  destruct i, j. unfold sameItemButUnused in Hij. simpl in Hij.
  destruct Hij as (-> & -> & -> & -> & -> & -> & ->). reflexivity.
Qed.

Lemma filter_scrub (p : InvoiceItem.t -> bool) items :
  (forall i, p (scrubItem i) = p i) ->
  filter p (map scrubItem items) = map scrubItem (filter p items).
Proof.
  intros Hp. induction items as [|i items IH]; simpl; [reflexivity|].
  rewrite Hp. destruct (p i); simpl; now rewrite IH.
Qed.

Lemma reduce_scrub (f : Q -> InvoiceItem.t -> Q) items init :
  (forall s i, f s (scrubItem i) = f s i) ->
  JS.reduce f (map scrubItem items) init = JS.reduce f items init.
Proof.
  intros Hf. unfold JS.reduce. revert init.
  induction items as [|i items IH]; intros init; simpl; [reflexivity|].
  now rewrite Hf, IH.
Qed.

Lemma regimeItems_scrub d regime :
  regimeItems (scrub d) regime = map scrubItem (regimeItems d regime).
Proof. unfold regimeItems. simpl. now apply filter_scrub. Qed.

Lemma weight023Sum_scrub d : weight023Sum (scrub d) = weight023Sum d.
Proof.
  unfold weight023Sum. simpl.
  rewrite filter_scrub by reflexivity. now apply reduce_scrub.
Qed.

Lemma regimesFound_scrub d : regimesFound (scrub d) = regimesFound d.
Proof.
  unfold regimesFound. simpl. rewrite map_map. reflexivity.
Qed.

Lemma getOwn_scrub groups key :
  JS.getOwn (scrubGroups groups) key
  = option_map (map scrubItem) (JS.getOwn groups key).
Proof.
  induction groups as [|[k xs] groups IH]; simpl; [reflexivity|].
  now destruct (String.eqb k key).
Qed.

Lemma push_scrub groups key x :
  JS.push (scrubGroups groups) key (scrubItem x)
  = scrubGroups (JS.push groups key x).
Proof.
  induction groups as [|[k xs] groups IH]; simpl; [reflexivity|].
  destruct (String.eqb k key); simpl.
  - now rewrite map_app.
  - now rewrite IH.
Qed.

Lemma hsGroupsFrom_scrub v items groups :
  hsGroupsFrom v (map scrubItem items) (scrubGroups groups)
  = match hsGroupsFrom v items groups with
    | JS.Normal groups' => JS.Normal (scrubGroups groups')
    | JS.TypeError => JS.TypeError
    end.
Proof.
  revert groups. induction items as [|i items IH]; intros groups; simpl;
    [reflexivity|].
  unfold hsGroupsStep, JS.get.
  change (hsKey v (scrubItem i)) with (hsKey v i).
  rewrite getOwn_scrub.
  destruct (JS.getOwn groups (hsKey v i)); simpl.
  - rewrite push_scrub. apply IH.
  - destruct (JS.inherited (hsKey v i)); simpl; [reflexivity|].
    rewrite <- IH. f_equal.
    rewrite <- push_scrub. f_equal.
    unfold scrubGroups. now rewrite map_app.
Qed.

Lemma insertByIndex_scrub n e sorted :
  JS.insertByIndex n (fst e, map scrubItem (snd e))
    (map (fun ne => (fst ne, (fst (snd ne), map scrubItem (snd (snd ne)))))
       sorted)
  = map (fun ne => (fst ne, (fst (snd ne), map scrubItem (snd (snd ne)))))
      (JS.insertByIndex n e sorted).
Proof.
  induction sorted as [|[m e'] rest IH]; simpl; [reflexivity|].
  destruct (n <=? m)%N; simpl; [reflexivity|]. now rewrite IH.
Qed.

Lemma Object_entries_scrub groups :
  JS.Object_entries (scrubGroups groups) = scrubGroups (JS.Object_entries groups).
Proof.
  unfold JS.Object_entries, scrubGroups. rewrite map_app. f_equal.
  - assert (H : JS.indexKeys
                  (map (fun e => (fst e, map scrubItem (snd e))) groups)
                = map (fun ne => (fst ne, (fst (snd ne),
                                           map scrubItem (snd (snd ne)))))
                    (JS.indexKeys groups)).
    { induction groups as [|[k xs] groups IH]; simpl; [reflexivity|].
      destruct (JS.arrayIndex k); [|exact IH].
      rewrite IH. exact (insertByIndex_scrub n (k, xs) (JS.indexKeys groups)). }
    rewrite H, !map_map. reflexivity.
  - induction groups as [|[k xs] groups IH]; simpl; [reflexivity|].
    destruct (JS.arrayIndex k); simpl; now rewrite IH.
Qed.

Lemma hsCodeEntry_scrub v d rate regime e :
  hsCodeEntry v (scrub d) rate regime (fst e, map scrubItem (snd e))
  = hsCodeEntry v d rate regime e.
Proof.
  destruct e as [k items]. simpl.
  assert (Hfob : fobHS rate (map scrubItem items) = fobHS rate items)
    by (unfold fobHS; now rewrite reduce_scrub).
  assert (Hnet : netWeightHS (map scrubItem items) = netWeightHS items)
    by (unfold netWeightHS; now rewrite reduce_scrub).
  assert (Hw : weightHS regime (map scrubItem items) = weightHS regime items)
    by (unfold weightHS; now rewrite Hnet, !reduce_scrub).
  assert (Hratio : fretRatioFor023_CFR v (scrub d) rate
                   = fretRatioFor023_CFR v d rate)
    by (unfold fretRatioFor023_CFR, weight023Total;
        now rewrite weight023Sum_scrub).
  assert (Hfret : fretHS v (scrub d) rate regime (map scrubItem items)
                  = fretHS v d rate regime items)
    by (unfold fretHS; now rewrite Hw, Hratio).
  assert (Hdesc : firstDescription (map scrubItem items)
                  = firstDescription items) by now destruct items.
  unfold assuranceHS, aconageHS, fretHSValueForVAD, displayFretHS.
  now rewrite Hfob, Hnet, Hw, Hfret, Hdesc.
Qed.

Lemma regimeResult_scrub v d rate regime :
  regimeResult v (scrub d) rate regime = regimeResult v d rate regime.
Proof.
  unfold regimeResult, hsGroups. rewrite regimeItems_scrub.
  change (@nil (string * list InvoiceItem.t)) with (scrubGroups []) at 1.
  rewrite hsGroupsFrom_scrub.
  destruct (hsGroupsFrom v (regimeItems d regime) []) as [groups|]; simpl;
    [|reflexivity].
  f_equal. unfold regimeResultOf.
  rewrite Object_entries_scrub. unfold scrubGroups. rewrite map_map.
  rewrite (map_ext _ (hsCodeEntry v d rate regime))
    by (intros e; apply hsCodeEntry_scrub).
  reflexivity.
Qed.

Lemma mapM_ext {A B : Type} (f g : A -> JS.Completion B) xs :
  (forall x, f x = g x) -> JS.mapM f xs = JS.mapM g xs.
Proof.
  intros H. induction xs as [|x xs IH]; simpl; [reflexivity|].
  now rewrite H, IH.
Qed.

Lemma calculateCustoms_scrub v d rate :
  calculateCustoms v (scrub d) rate = calculateCustoms v d rate.
Proof.
  unfold calculateCustoms. rewrite regimesFound_scrub.
  rewrite (mapM_ext _ (regimeResult v d rate))
    by (intros regime; apply regimeResult_scrub).
  reflexivity.
Qed.

(** C10 (unused inputs).  Two invoices that differ only in the invoice-level
    insurance amount and in items' quantities and unit prices get the same
    outcome from the engine at the same exchange rate, report for report: the
    calculation reads none of the three.  Holds for both listings. *)
Theorem unused_inputs v d1 d2 rate :
  sameButUnused d1 d2 ->
  calculateCustoms v d1 rate = calculateCustoms v d2 rate.
Proof.
  intros H.
  rewrite <- (calculateCustoms_scrub v d1), <- (calculateCustoms_scrub v d2).
  now rewrite (scrub_same d1 d2 H).
Qed.

(** The CFR sample against a copy insured for 35 whose goods line is billed
    as 100 units at 10. *)
Lemma unused_inputs_witness :
  calculateCustoms ListingB invoiceCFR 11
  = calculateCustoms ListingB
      (InvoiceData.mk "F-2024-001" "2024-03-01" "EUR" 1000 100 35 "cfr" 500 SEA
         None
         [InvoiceItem.mk "Oranges" 100 10 1000 "023" "HS1" (Some 500) None None;
          samplePackaging])
      11.
Proof.
  apply (unused_inputs ListingB invoiceCFR).
  unfold sameButUnused, invoiceCFR. simpl.
  repeat split; try reflexivity.
  repeat constructor.
Defined.

(* ================================================================== *)
(** ** Further properties of the engine *)
(* ================================================================== *)

(** *** Sums over keyed lists *)

Lemma sumQ_plus {A : Type} (f g : A -> Q) (xs : list A) :
  sumQ (map (fun x => f x + g x) xs) == sumQ (map f xs) + sumQ (map g xs).
Proof.
  induction xs as [|x xs IH]; simpl.
  - ring.
  - rewrite IH. ring.
Qed.

Lemma sumQ_indicator (ks : list string) (k0 : string) (c : Q) :
  NoDup ks -> In k0 ks ->
  sumQ (map (fun k => if String.eqb k0 k then c else 0) ks) == c.
Proof.
  induction 1 as [|k ks Hk Hnd IH]; intros Hin; [contradiction|].
  simpl. destruct (String.eqb k0 k) eqn:E.
  - apply String.eqb_eq in E. subst k0.
    rewrite sumQ_zero; [ring|].
    intros k' Hk'. destruct (String.eqb k k') eqn:E'; [|reflexivity].
    apply String.eqb_eq in E'. subst k'. contradiction.
  - destruct Hin as [->|Hin]; [now rewrite String.eqb_refl in E|].
    rewrite (IH Hin). ring.
Qed.


Lemma sumQ_Forall2 {A B : Type} (f : A -> Q) (g : B -> Q) xs ys :
  Forall2 (fun x y => f x == g y) xs ys ->
  sumQ (map f xs) == sumQ (map g ys).
Proof.
  induction 1 as [|x y xs ys Hxy _ IH]; simpl.
  - reflexivity.
  - now rewrite Hxy, IH.
Qed.

(** *** [Array.from(new Set(...))] *)

Lemma distinct_In seen xs x :
  In x (JS.distinct seen xs) <-> In x xs /\ ~ In x seen.
Proof.
  revert seen. induction xs as [|y xs IH]; intros seen; simpl.
  - tauto.
  - destruct (existsb (String.eqb y) seen) eqn:E.
    + apply existsb_exists in E. destruct E as [z [Hz Hyz]].
      apply String.eqb_eq in Hyz. subst z.
      rewrite IH. split.
      * tauto.
      * intros [[->|Hx] Hn]; [contradiction|tauto].
    + assert (Hy : ~ In y seen).
      { intros Hy. rewrite <- not_true_iff_false in E. apply E.
        apply existsb_exists. exists y. split; [assumption|].
        apply String.eqb_refl. }
      simpl. rewrite IH. simpl. split.
      * intros [->|[Hx Hn]]; [tauto|]. split; [tauto|]. tauto.
      * intros [[->|Hx] Hn]; [now left|].
        destruct (string_dec y x) as [->|Hne]; [now left|].
        right. split; [assumption|]. intros [Heq|Hs]; tauto.
Qed.

Lemma distinct_NoDup seen xs : NoDup (JS.distinct seen xs).
Proof.
  revert seen. induction xs as [|y xs IH]; intros seen; simpl.
  - constructor.
  - destruct (existsb (String.eqb y) seen); [apply IH|].
    constructor; [|apply IH].
    rewrite distinct_In. simpl. tauto.
Qed.

Lemma distinct_ext seen seen' xs :
  (forall x, In x seen <-> In x seen') ->
  JS.distinct seen xs = JS.distinct seen' xs.
Proof.
  revert seen seen'. induction xs as [|y xs IH]; intros seen seen' H; simpl;
    [reflexivity|].
  assert (E : existsb (String.eqb y) seen = existsb (String.eqb y) seen').
  { apply eq_true_iff_eq. rewrite !existsb_exists.
    split; intros [z [Hz Hyz]]; exists z; split; try assumption;
      now apply H. }
  rewrite E. destruct (existsb (String.eqb y) seen').
  - now apply IH.
  - f_equal. apply IH. intros x. simpl. rewrite H. tauto.
Qed.

Lemma filter_twice {A : Type} (p : A -> bool) xs :
  filter p (filter p xs) = filter p xs.
Proof.
  induction xs as [|x xs IH]; simpl; [reflexivity|].
  destruct (p x) eqn:E; simpl; [rewrite E|]; now rewrite IH.
Qed.

Lemma distinct_cons_seen x seen xs :
  JS.distinct (x :: seen) xs
  = filter (fun y => negb (String.eqb y x)) (JS.distinct seen xs).
Proof.
  revert seen. induction xs as [|y xs IH]; intros seen; [reflexivity|].
  simpl. destruct (String.eqb y x) eqn:Eyx; simpl.
  - apply String.eqb_eq in Eyx. subst y.
    destruct (existsb (String.eqb x) seen).
    + apply IH.
    + simpl. rewrite String.eqb_refl. simpl.
      rewrite IH. symmetry. apply filter_twice.
  - destruct (existsb (String.eqb y) seen).
    + apply IH.
    + simpl. rewrite Eyx. simpl. f_equal.
      rewrite <- IH. apply distinct_ext.
      intros z. simpl. tauto.
Qed.

Lemma Array_from_Set_firstSeen xs : JS.Array_from_Set xs = firstSeen xs.
Proof.
  unfold JS.Array_from_Set. induction xs as [|x xs IH]; [reflexivity|].
  simpl. now rewrite distinct_cons_seen, IH.
Qed.

Lemma regimesFound_In data regime :
  In regime (regimesFound data)
  <-> exists i, In i (InvoiceData.items data) /\ InvoiceItem.regime i = regime.
Proof.
  unfold regimesFound, JS.Array_from_Set. rewrite distinct_In, in_map_iff.
  simpl. split.
  - intros [[i [Hi Hin]] _]. now exists i.
  - intros [i [Hin Hi]]. split; [now exists i|tauto].
Qed.

(** *** One regime result per regime *)

Lemma Forall2_In_l {A B : Type} (R : A -> B -> Prop) xs ys :
  Forall2 R xs ys -> forall x, In x xs -> exists y, In y ys /\ R x y.
Proof.
  induction 1 as [|x0 y0 xs ys Hxy _ IH]; intros x Hx; [contradiction|].
  destruct Hx as [<-|Hx].
  - exists y0. split; [now left|assumption].
  - destruct (IH x Hx) as [y [Hy HR]]. exists y. split; [now right|assumption].
Qed.

Lemma mapM_Forall2 {A B : Type} (f : A -> JS.Completion B) xs ys :
  JS.mapM f xs = JS.Normal ys ->
  Forall2 (fun x y => f x = JS.Normal y) xs ys.
Proof.
  revert ys. induction xs as [|x xs IH]; intros ys H; simpl in H.
  - injection H as <-. constructor.
  - bind_inv H. bind_inv H. injection H as <-.
    constructor; [assumption|now apply IH].
Qed.

Lemma report_regimes v data rate res :
  calculateCustoms v data rate = JS.Normal res ->
  Forall2 (fun regime r =>
             exists groups,
               hsGroups v data regime = JS.Normal groups /\
               r = regimeResultOf v data rate regime groups)
    (regimesFound data) (CustomsResult.breakdown res).
Proof.
  intros H.
  destruct (calculateCustoms_report _ _ _ _ H) as [bd [Hbd ->]]. simpl.
  apply mapM_Forall2 in Hbd. revert Hbd. apply Forall2_impl.
  intros regime r Hr.
  destruct (regimeResult_groups _ _ _ _ _ Hr) as [groups [Hg ->]].
  now exists groups.
Qed.

(** X2 (regime grouper).  A returned report holds exactly one regime result
    per regime code of the invoice, in the order in which the codes first
    appear among the lines: the regimes of the breakdown are the first-seen
    list of the lines' regimes, which has no duplicates and holds a code
    exactly when some line carries it. *)
Theorem regimes_first_seen v data rate res :
  calculateCustoms v data rate = JS.Normal res ->
  map RegimeResult.regime (CustomsResult.breakdown res)
  = firstSeen (map InvoiceItem.regime (InvoiceData.items data)) /\
  NoDup (map RegimeResult.regime (CustomsResult.breakdown res)) /\
  (forall regime,
      In regime (map RegimeResult.regime (CustomsResult.breakdown res))
      <-> exists i, In i (InvoiceData.items data) /\
                    InvoiceItem.regime i = regime).
Proof.
  intros H.
  assert (Hmap : map RegimeResult.regime (CustomsResult.breakdown res)
                 = regimesFound data).
  { pose proof (report_regimes v data rate res H) as HF.
    induction HF as [|regime r regimes rs [groups [_ ->]] _ IH]; simpl;
      [reflexivity|]. now rewrite IH. }
  rewrite Hmap. split; [apply Array_from_Set_firstSeen|].
  split; [apply distinct_NoDup|]. apply regimesFound_In.
Qed.

Lemma regimes_first_seen_witness :
  map RegimeResult.regime
    (CustomsResult.breakdown (sampleReport ListingB invoiceCFR))
  = firstSeen (map InvoiceItem.regime (InvoiceData.items invoiceCFR)).
Proof.
  apply (regimes_first_seen ListingB invoiceCFR 11). reflexivity.
Defined.

(** *** Own keys of [hsGroups] *)

Lemma getOwn_In {V : Type} (o : JS.Obj V) k x :
  JS.getOwn o k = Some x -> In (k, x) o.
Proof.
  induction o as [|[k1 y] o IH]; simpl; [discriminate|].
  destruct (String.eqb k1 k) eqn:E.
  - apply String.eqb_eq in E. subst k1. intros H. injection H as <-. now left.
  - intros H. right. now apply IH.
Qed.

Lemma getOwn_None {V : Type} (o : JS.Obj V) k :
  JS.getOwn o k = None <-> ~ In k (map fst o).
Proof.
  induction o as [|[k1 y] o IH]; simpl; [tauto|].
  destruct (String.eqb k1 k) eqn:E.
  - apply String.eqb_eq in E. subst k1. split; [discriminate|tauto].
  - apply String.eqb_neq in E. rewrite IH. tauto.
Qed.

Lemma In_getOwn {V : Type} (o : JS.Obj V) k x :
  NoDup (map fst o) -> In (k, x) o -> JS.getOwn o k = Some x.
Proof.
  induction o as [|[k1 y] o IH]; simpl; intros Hnd Hin; [contradiction|].
  inversion Hnd as [|? ? Hk1 Hnd']; subst.
  destruct Hin as [Heq|Hin].
  - injection Heq as -> ->. now rewrite String.eqb_refl.
  - destruct (String.eqb k1 k) eqn:E; [|now apply IH].
    apply String.eqb_eq in E. subst k1. exfalso. apply Hk1.
    apply in_map_iff. now exists (k, x).
Qed.

Lemma push_keys {V : Type} (o : JS.Obj (list V)) k x :
  map fst (JS.push o k x) = map fst o.
Proof.
  induction o as [|[k1 ys] o IH]; simpl; [reflexivity|].
  destruct (String.eqb k1 k); simpl; [reflexivity|now rewrite IH].
Qed.

Lemma getOwn_push {V : Type} (o : JS.Obj (list V)) k0 x k :
  JS.getOwn (JS.push o k0 x) k
  = if String.eqb k0 k
    then option_map (fun xs => (xs ++ [x])%list) (JS.getOwn o k)
    else JS.getOwn o k.
Proof.
  induction o as [|[k1 ys] o IH]; simpl.
  - now destruct (String.eqb k0 k).
  - destruct (String.eqb k1 k0) eqn:E10; simpl.
    + apply String.eqb_eq in E10. subst k1.
      now destruct (String.eqb k0 k).
    + destruct (String.eqb k1 k) eqn:E1; [|exact IH].
      apply String.eqb_eq in E1. subst k1.
      rewrite String.eqb_sym in E10. now rewrite E10.
Qed.

Lemma getOwn_app {V : Type} (o : JS.Obj V) k0 y k :
  JS.getOwn (o ++ [(k0, y)])%list k
  = match JS.getOwn o k with
    | Some x => Some x
    | None => if String.eqb k0 k then Some y else None
    end.
Proof.
  induction o as [|[k1 z] o IH]; simpl; [reflexivity|].
  now destruct (String.eqb k1 k).
Qed.

(** *** When the engine throws *)

Lemma hsGroupsFrom_keys v items groups groups' :
  hsGroupsFrom v items groups = JS.Normal groups' ->
  (forall k, In k (map fst groups) -> JS.inherited k = false) ->
  forall i, In i items -> JS.inherited (hsKey v i) = false.
Proof.
  revert groups. induction items as [|j items IH]; intros groups H Hown i Hi;
    [contradiction|].
  simpl in H. bind_inv H. unfold hsGroupsStep, JS.get in E.
  destruct (JS.getOwn groups (hsKey v j)) as [xs|] eqn:Eo.
  - injection E as <-.
    assert (Hj : JS.inherited (hsKey v j) = false).
    { apply Hown. apply getOwn_In in Eo.
      apply in_map_iff. now exists (hsKey v j, xs). }
    destruct Hi as [->|Hi]; [exact Hj|].
    apply (IH _ H); [|exact Hi]. now rewrite push_keys.
  - destruct (JS.inherited (hsKey v j)) eqn:Ej; [discriminate|].
    injection E as <-.
    destruct Hi as [->|Hi]; [exact Ej|].
    apply (IH _ H); [|exact Hi].
    rewrite push_keys, map_app. intros k Hk.
    apply in_app_or in Hk. destruct Hk as [Hk|[<-|[]]]; [now apply Hown|].
    exact Ej.
Qed.

(** X1 (when the engine throws).  [calculateCustoms] throws its [TypeError]
    exactly when some invoice line has a bucket key - its HS code, or the
    fallback key when the code is empty - that names a member of
    [Object.prototype], such as "constructor" or "toString"; for every other
    invoice it returns a report. *)
Theorem throws_exactly v data rate :
  calculateCustoms v data rate = JS.TypeError
  <-> exists i, In i (InvoiceData.items data) /\
                JS.inherited (hsKey v i) = true.
Proof.
  split.
  - intros H.
    destruct (existsb (fun i => JS.inherited (hsKey v i))
                (InvoiceData.items data)) eqn:E.
    + apply existsb_exists in E. exact E.
    + destruct (calculateCustoms_returns v data rate) as [res Hres].
      * intros i Hi.
        destruct (JS.inherited (hsKey v i)) eqn:Ei; [|reflexivity].
        rewrite <- E. symmetry. apply existsb_exists. now exists i.
      * congruence.
  - intros [i [Hi Hinh]].
    destruct (calculateCustoms v data rate) as [res|] eqn:H; [|reflexivity].
    exfalso.
    assert (Hreg : In (InvoiceItem.regime i) (regimesFound data))
      by (apply regimesFound_In; now exists i).
    pose proof (report_regimes v data rate res H) as HF.
    assert (Hg : exists groups,
               hsGroups v data (InvoiceItem.regime i) = JS.Normal groups).
    { destruct (Forall2_In_l _ _ _ HF _ Hreg) as [r [_ [groups [Hg _]]]].
      now exists groups. }
    destruct Hg as [groups Hg]. unfold hsGroups in Hg.
    assert (Hfalse : JS.inherited (hsKey v i) = false).
    { apply (hsGroupsFrom_keys v _ _ _ Hg); [intros k []|].
      unfold regimeItems. apply filter_In. split; [assumption|].
      apply String.eqb_refl. }
    congruence.
Qed.

(** *** What a bucket holds *)

Lemma linesWithKey_snoc v k done i :
  linesWithKey v k (done ++ [i])
  = (linesWithKey v k done
     ++ (if String.eqb (hsKey v i) k then [i] else []))%list.
Proof.
  unfold linesWithKey. rewrite filter_app. simpl.
  now destruct (String.eqb (hsKey v i) k).
Qed.

Lemma hsGroupsStep_buckets v groups done i groups' :
  hsGroupsStep v groups i = JS.Normal groups' ->
  NoDup (map fst groups) ->
  (forall k, JS.getOwn groups k
             = match linesWithKey v k done with
               | [] => None
               | xs => Some xs
               end) ->
  NoDup (map fst groups') /\
  (forall k, JS.getOwn groups' k
             = match linesWithKey v k (done ++ [i]) with
               | [] => None
               | xs => Some xs
               end).
Proof.
  intros H Hnd Hspec. unfold hsGroupsStep, JS.get in H.
  destruct (JS.getOwn groups (hsKey v i)) as [xs0|] eqn:Eo.
  - injection H as <-. split; [now rewrite push_keys|].
    intros k. rewrite getOwn_push, linesWithKey_snoc.
    destruct (String.eqb (hsKey v i) k) eqn:Ek.
    + apply String.eqb_eq in Ek. subst k.
      rewrite Eo. rewrite Hspec in Eo.
      destruct (linesWithKey v (hsKey v i) done) as [|x xs]; [discriminate|].
      injection Eo as <-. reflexivity.
    + rewrite app_nil_r. apply Hspec.
  - destruct (JS.inherited (hsKey v i)); [discriminate|].
    injection H as <-. rewrite (push_fresh _ _ _ Eo). split.
    + rewrite map_app. simpl.
      apply (Permutation_NoDup (Permutation_cons_append _ _)).
      constructor; [now apply getOwn_None|assumption].
    + intros k. rewrite getOwn_app, linesWithKey_snoc.
      destruct (String.eqb (hsKey v i) k) eqn:Ek.
      * apply String.eqb_eq in Ek. subst k.
        rewrite Eo. rewrite Hspec in Eo.
        destruct (linesWithKey v (hsKey v i) done); [reflexivity|discriminate].
      * rewrite app_nil_r, Hspec.
        now destruct (linesWithKey v k done).
Qed.

Lemma hsGroupsFrom_buckets v items groups done groups' :
  hsGroupsFrom v items groups = JS.Normal groups' ->
  NoDup (map fst groups) ->
  (forall k, JS.getOwn groups k
             = match linesWithKey v k done with
               | [] => None
               | xs => Some xs
               end) ->
  NoDup (map fst groups') /\
  (forall k, JS.getOwn groups' k
             = match linesWithKey v k (done ++ items) with
               | [] => None
               | xs => Some xs
               end).
Proof.
  revert groups done. induction items as [|i items IH];
    intros groups done H Hnd Hspec; simpl in H.
  - injection H as <-. now rewrite app_nil_r.
  - bind_inv H.
    destruct (hsGroupsStep_buckets v groups done i _ E Hnd Hspec)
      as [Hnd' Hspec'].
    destruct (IH _ _ H Hnd' Hspec') as [Hnd'' Hspec''].
    split; [assumption|]. intros k. rewrite Hspec'', <- app_assoc.
    reflexivity.
Qed.

Lemma buckets_keys v data regime groups :
  hsGroups v data regime = JS.Normal groups ->
  NoDup (map fst (JS.Object_entries groups)) /\
  (forall k xs, In (k, xs) (JS.Object_entries groups) ->
     xs <> [] /\ xs = linesWithKey v k (regimeItems data regime)) /\
  (forall i, In i (regimeItems data regime) ->
     In (hsKey v i, linesWithKey v (hsKey v i) (regimeItems data regime))
       (JS.Object_entries groups)).
Proof.
  intros H. unfold hsGroups in H.
  destruct (hsGroupsFrom_buckets v _ [] [] _ H) as [Hnd Hspec];
    [constructor|reflexivity|]. simpl in Hspec.
  split; [|split].
  - apply (Permutation_NoDup
             (Permutation_map fst (Permutation_sym (Object_entries_perm groups)))).
    exact Hnd.
  - intros k xs Hin. apply (proj1 (Object_entries_In _ _)) in Hin.
    pose proof (In_getOwn _ _ _ Hnd Hin) as Hget. rewrite Hspec in Hget.
    destruct (linesWithKey v k (regimeItems data regime)) as [|x l];
      [discriminate|].
    injection Hget as <-. split; [discriminate|reflexivity].
  - intros i Hi. apply Object_entries_In. apply getOwn_In. rewrite Hspec.
    assert (Hin : In i (linesWithKey v (hsKey v i) (regimeItems data regime))).
    { unfold linesWithKey. apply filter_In. split; [assumption|].
      apply String.eqb_refl. }
    destruct (linesWithKey v (hsKey v i) (regimeItems data regime));
      [contradiction|reflexivity].
Qed.

(** X3 (HS-code aggregator).  The buckets the engine builds for a regime
    partition that regime's lines by bucket key (the HS code, or the
    fallback key for an empty code): the keys of the entries are pairwise
    distinct, an entry with key [k] holds exactly the regime's lines of key
    [k] in invoice order and is never empty, and every line of the regime is
    in the entry of its key. *)
Theorem buckets_partition v data regime groups :
  hsGroups v data regime = JS.Normal groups ->
  NoDup (map fst (JS.Object_entries groups)) /\
  (forall k xs, In (k, xs) (JS.Object_entries groups) ->
     xs <> [] /\ xs = linesWithKey v k (regimeItems data regime)) /\
  (forall i, In i (regimeItems data regime) ->
     In (hsKey v i, linesWithKey v (hsKey v i) (regimeItems data regime))
       (JS.Object_entries groups)).
Proof.
  intros H.
  destruct (buckets_keys v data regime groups H) as (Hnd & Hxs & Hcover).
  split; [exact Hnd|]. split.
  - intros k xs Hin. exact (Hxs k xs Hin).
  - intros i Hi. exact (Hcover i Hi).
Qed.

Lemma buckets_partition_witness :
  NoDup (map fst (JS.Object_entries [("HS1", [sampleGoods])])) /\
  (forall k xs, In (k, xs) (JS.Object_entries [("HS1", [sampleGoods])]) ->
     xs <> [] /\ xs = linesWithKey ListingB k (regimeItems invoiceCFR "023")) /\
  (forall i, In i (regimeItems invoiceCFR "023") ->
     In (hsKey ListingB i,
         linesWithKey ListingB (hsKey ListingB i) (regimeItems invoiceCFR "023"))
       (JS.Object_entries [("HS1", [sampleGoods])])).
Proof.
  apply (buckets_partition ListingB invoiceCFR "023"). reflexivity.
Defined.

(** *** Regime by regime *)

Lemma weightHS_lines regime items :
  (forall i, In i items -> InvoiceItem.regime i = regime) ->
  weightHS regime items == sumQ (map lineWeight items).
Proof.
  intros Hreg. unfold weightHS.
  destruct (String.eqb regime "023") eqn:E023;
    [|destruct (String.eqb regime "312") eqn:E312].
  - apply String.eqb_eq in E023. rewrite netWeightHS_sum.
    apply sumQ_ext. intros i Hi. unfold lineWeight.
    rewrite (Hreg i Hi), E023. reflexivity.
  - cbv zeta. rewrite !reduce_sum0.
    rewrite (sumQ_ext lineWeight
               (fun i => JS.orOpt (InvoiceItem.packagingCaisses i) 0 * 2
                         + JS.orOpt (InvoiceItem.packagingPalettes i) 0 * 25)).
    + rewrite sumQ_plus.
      rewrite (sumQ_ext
                 (fun i => JS.orOpt (InvoiceItem.packagingCaisses i) 0 * 2)
                 (fun i => 2 * JS.orOpt (InvoiceItem.packagingCaisses i) 0))
        by (intros; ring).
      rewrite (sumQ_ext
                 (fun i => JS.orOpt (InvoiceItem.packagingPalettes i) 0 * 25)
                 (fun i => 25 * JS.orOpt (InvoiceItem.packagingPalettes i) 0))
        by (intros; ring).
      rewrite !sumQ_scale. ring.
    + intros i Hi. unfold lineWeight. rewrite (Hreg i Hi), E312. reflexivity.
  - rewrite netWeightHS_sum. apply sumQ_ext. intros i Hi. unfold lineWeight.
    rewrite (Hreg i Hi), E312. reflexivity.
Qed.

Lemma regimeItems_regime data regime i :
  In i (regimeItems data regime) -> InvoiceItem.regime i = regime.
Proof.
  unfold regimeItems. intros H. apply filter_In in H.
  now apply String.eqb_eq.
Qed.



(** Summing a regime-level figure over the breakdown of a report. *)
Lemma sum_over_breakdown v data rate res (g : RegimeResult.t -> Q)
      (g' : string -> Q) :
  calculateCustoms v data rate = JS.Normal res ->
  (forall regime groups,
      hsGroups v data regime = JS.Normal groups ->
      g (regimeResultOf v data rate regime groups) == g' regime) ->
  sumQ (map g (CustomsResult.breakdown res))
  == sumQ (map g' (regimesFound data)).
Proof.
  intros H Hg. symmetry. apply sumQ_Forall2.
  generalize (report_regimes v data rate res H). apply Forall2_impl.
  intros regime r [groups [Hgr ->]]. symmetry. now apply Hg.
Qed.




Lemma ratios_positive_weight v data rate :
  0 < InvoiceData.totalWeightBrut data ->
  globalFretRatio v data rate
  = totalFretMAD data rate / InvoiceData.totalWeightBrut data /\
  globalAconageRatio v data == 2300 / InvoiceData.totalWeightBrut data.
Proof.
  intros Hpos.
  assert (Hnz : ~ InvoiceData.totalWeightBrut data == 0).
  { intros Hz. rewrite Hz in Hpos. exact (Qlt_irrefl 0 Hpos). }
  unfold globalFretRatio, globalAconageRatio, totalWeightBrut. destruct v.
  - rewrite (orNum_nonzero _ 1 Hnz). now split.
  - rewrite (proj2 (gt_true _ _) Hpos). now split.
Qed.

(** *** The two listings side by side *)

Lemma hsGroupsFrom_same_keys items groups :
  (forall i, In i items -> InvoiceItem.hsCode i <> "") ->
  hsGroupsFrom ListingA items groups = hsGroupsFrom ListingB items groups.
Proof.
  revert groups. induction items as [|i items IH]; intros groups H;
    [reflexivity|]. simpl.
  assert (Hk : hsKey ListingA i = hsKey ListingB i).
  { unfold hsKey. specialize (H i (or_introl eq_refl)).
    destruct (InvoiceItem.hsCode i); [contradiction|reflexivity]. }
  unfold hsGroupsStep. rewrite Hk.
  destruct (JS.get groups (hsKey ListingB i)); simpl; try reflexivity;
    apply IH; intros j Hj; apply H; now right.
Qed.

Lemma hsCodeEntry_same data rate regime entry :
  JS.toUpperCase (InvoiceData.incoterm data) <> "CIF" ->
  0 < InvoiceData.totalWeightBrut data ->
  (isCFR ListingB data = true -> 0 < weight023Sum data) ->
  hsCodeEntry ListingA data rate regime entry
  = hsCodeEntry ListingB data rate regime entry.
Proof.
  intros Hcif Hpos H023. destruct entry as [k items].
  assert (Hc : isCFR ListingA data = isCFR ListingB data).
  { unfold isCFR. apply String.eqb_neq in Hcif. rewrite Hcif.
    apply orb_false_r. }
  assert (Hfr : globalFretRatio ListingA data rate
                = globalFretRatio ListingB data rate).
  { destruct (ratios_positive_weight ListingA data rate Hpos) as [-> _].
    destruct (ratios_positive_weight ListingB data rate Hpos) as [-> _].
    reflexivity. }
  assert (Har : globalAconageRatio ListingA data
                = globalAconageRatio ListingB data).
  { assert (Hnz : ~ InvoiceData.totalWeightBrut data == 0).
    { intros Hz. rewrite Hz in Hpos. exact (Qlt_irrefl 0 Hpos). }
    unfold globalAconageRatio, totalWeightBrut.
    rewrite (orNum_nonzero _ 1 Hnz), (proj2 (gt_true _ _) Hpos).
    reflexivity. }
  assert (Hfret : fretHS ListingA data rate regime items
                  = fretHS ListingB data rate regime items).
  { unfold fretHS. rewrite Hc, Hfr.
    destruct (isCFR ListingB data) eqn:E; [|reflexivity].
    rewrite (fretRatioFor023_CFR_positive ListingA data rate (H023 eq_refl)).
    rewrite (fretRatioFor023_CFR_positive ListingB data rate (H023 eq_refl)).
    reflexivity. }
  unfold hsCodeEntry, assuranceHS, aconageHS, fretHSValueForVAD, displayFretHS.
  now rewrite Hfret, Har.
Qed.

Lemma mapM_sameOutcome {A B : Type} (R : B -> B -> Prop)
      (f g : A -> JS.Completion B) xs :
  (forall x, sameOutcome R (f x) (g x)) ->
  sameOutcome (Forall2 R) (JS.mapM f xs) (JS.mapM g xs).
Proof.
  intros H. induction xs as [|x xs IH]; simpl; [constructor|].
  specialize (H x). unfold sameOutcome in *.
  destruct (f x), (g x); simpl; try contradiction; [|exact I].
  destruct (JS.mapM f xs), (JS.mapM g xs); simpl; try contradiction;
    [|exact I].
  now constructor.
Qed.

Lemma reduce_Forall2 {A : Type} (R : A -> A -> Prop) (f : A -> Q) xs ys init :
  (forall x y, R x y -> f x = f y) ->
  Forall2 R xs ys ->
  JS.reduce (fun s x => s + f x) xs init = JS.reduce (fun s x => s + f x) ys init.
Proof.
  intros Hf HF. unfold JS.reduce. revert init.
  induction HF as [|x y xs ys Hxy _ IH]; intros init; simpl; [reflexivity|].
  now rewrite (Hf x y Hxy), IH.
Qed.

(** X10 (the listings agree).  On an invoice whose Incoterm is not CIF,
    whose declared gross weight is positive, whose regime-"023" net weight is
    positive when the Incoterm is CFR, and all of whose lines carry an HS
    code, the two listings of [calculateCustoms] have the same outcome up to
    the regime labels and the regimes' freight rollups: both throw, or both
    return reports with the same groups, the same other regime figures and
    the same grand totals. *)
Theorem listings_agree data rate :
  JS.toUpperCase (InvoiceData.incoterm data) <> "CIF" ->
  0 < InvoiceData.totalWeightBrut data ->
  (isCFR ListingB data = true -> 0 < weight023Sum data) ->
  (forall i, In i (InvoiceData.items data) -> InvoiceItem.hsCode i <> "") ->
  sameOutcome sameFigures
    (calculateCustoms ListingA data rate) (calculateCustoms ListingB data rate).
Proof.
  intros Hcif Hpos H023 Hcodes.
  assert (Hregime : forall regime,
             sameOutcome sameRegimeFigures
               (regimeResult ListingA data rate regime)
               (regimeResult ListingB data rate regime)).
  { intros regime. unfold regimeResult, hsGroups.
    rewrite hsGroupsFrom_same_keys.
    - destruct (hsGroupsFrom ListingB (regimeItems data regime) [])
        as [groups|]; simpl; [|exact I].
      unfold sameRegimeFigures, regimeResultOf. simpl.
      rewrite (map_ext _ (hsCodeEntry ListingB data rate regime))
        by (intros e; now apply hsCodeEntry_same).
      repeat split.
    - intros i Hi. apply Hcodes. unfold regimeItems in Hi.
      apply filter_In in Hi. tauto. }
  pose proof (mapM_sameOutcome sameRegimeFigures _ _ (regimesFound data) Hregime)
    as Hbd.
  unfold calculateCustoms, sameOutcome in *.
  destruct (JS.mapM (regimeResult ListingA data rate) (regimesFound data))
    as [bdA|], (JS.mapM (regimeResult ListingB data rate) (regimesFound data))
    as [bdB|]; simpl; try contradiction; [|exact I].
  assert (Hnz : ~ InvoiceData.totalWeightBrut data == 0).
  { intros Hz. rewrite Hz in Hpos. exact (Qlt_irrefl 0 Hpos). }
  unfold sameFigures, reportOf. simpl.
  split; [reflexivity|]. split; [reflexivity|]. split; [reflexivity|].
  split; [reflexivity|].
  split; [apply (reduce_Forall2 sameRegimeFigures); [|exact Hbd];
          intros a b Hab; apply Hab|].
  split; [apply (reduce_Forall2 sameRegimeFigures); [|exact Hbd];
          intros a b Hab; apply Hab|].
  split; [unfold totalWeightBrut; now apply orNum_nonzero|].
  split; [apply (reduce_Forall2 sameRegimeFigures); [|exact Hbd];
          intros a b Hab; apply Hab|].
  exact Hbd.
Qed.

Lemma listings_agree_witness :
  sameOutcome sameFigures
    (calculateCustoms ListingA invoiceCFR 11) (calculateCustoms ListingB invoiceCFR 11).
Proof.
  apply (listings_agree invoiceCFR 11).
  - discriminate.
  - reflexivity.
  - intros _. reflexivity.
  - intros i [<-|[<-|[]]]; discriminate.
Defined.

(** *** Rows of the report, read off the invoice lines *)

(** X11 (rows from lines).  In a returned report, the rows of a regime have
    pairwise distinct HS codes; the row of code [k] aggregates exactly the
    lines of that regime whose bucket key is [k]: there is at least one, the
    row's description is that of the first of them in invoice order, its net
    weight is the sum of their net weights, its gross weight the sum of
    their line weights, and its FOB the rate times the sum of their totals;
    and every line of the invoice is aggregated into the row of its regime
    and key. *)
Theorem rows_from_lines v data rate res :
  calculateCustoms v data rate = JS.Normal res ->
  (forall r, In r (CustomsResult.breakdown res) ->
     NoDup (map HSCodeBreakdown.hsCode (RegimeResult.hsCodeBreakdown r)) /\
     forall h, In h (RegimeResult.hsCodeBreakdown r) ->
       let xs := linesWithKey v (HSCodeBreakdown.hsCode h)
                   (regimeItems data (RegimeResult.regime r)) in
       (exists i rest,
           xs = i :: rest /\
           HSCodeBreakdown.description h = InvoiceItem.description i) /\
       HSCodeBreakdown.weightNet h
       == sumQ (map (fun i => JS.orOpt (InvoiceItem.weightNet i) 0) xs) /\
       HSCodeBreakdown.weightBrut h == sumQ (map lineWeight xs) /\
       HSCodeBreakdown.fobValueMAD h
       == sumQ (map InvoiceItem.totalPrice xs) * rate) /\
  (forall i, In i (InvoiceData.items data) ->
     exists r h,
       In r (CustomsResult.breakdown res) /\
       In h (RegimeResult.hsCodeBreakdown r) /\
       RegimeResult.regime r = InvoiceItem.regime i /\
       HSCodeBreakdown.hsCode h = hsKey v i).
Proof.
  intros H. split.
  - intros r Hr.
    destruct (report_regime _ _ _ _ _ H Hr) as [_ [groups [Hg Heq]]].
    destruct (buckets_keys v data (RegimeResult.regime r) groups Hg)
      as (Hnd & Hxs & _).
    assert (Hrows : RegimeResult.hsCodeBreakdown r
                    = map (hsCodeEntry v data rate (RegimeResult.regime r))
                        (JS.Object_entries groups))
      by (rewrite Heq at 1; reflexivity).
    split.
    + rewrite Hrows, map_map.
      rewrite (map_ext _ fst) by (now intros [k xs]). exact Hnd.
    + intros h Hh xs. rewrite Hrows in Hh. apply in_map_iff in Hh.
      destruct Hh as [[k items] [<- Hin]].
      destruct (Hxs k items Hin) as [Hne Hitems].
      unfold xs. simpl. rewrite <- Hitems.
      split; [|split; [|split]].
      * destruct items as [|i rest]; [contradiction|]. now exists i, rest.
      * apply netWeightHS_sum.
      * apply weightHS_lines. intros i Hi. rewrite Hitems in Hi.
        unfold linesWithKey in Hi. apply filter_In in Hi.
        apply (regimeItems_regime data). tauto.
      * unfold fobHS. now rewrite reduce_sum0.
  - intros i Hi.
    assert (Hreg : In (InvoiceItem.regime i) (regimesFound data))
      by (apply regimesFound_In; now exists i).
    destruct (Forall2_In_l _ _ _ (report_regimes v data rate res H) _ Hreg)
      as [r [Hr [groups [Hg Heq]]]].
    destruct (buckets_keys v data (InvoiceItem.regime i) groups Hg)
      as (_ & _ & Hcover).
    exists r.
    exists (hsCodeEntry v data rate (InvoiceItem.regime i)
              (hsKey v i,
               linesWithKey v (hsKey v i)
                 (regimeItems data (InvoiceItem.regime i)))).
    split; [exact Hr|]. rewrite Heq.
    split; [|now split].
    unfold regimeResultOf. cbn [RegimeResult.hsCodeBreakdown].
    apply in_map. apply Hcover.
    unfold regimeItems. apply filter_In. split; [assumption|].
    apply String.eqb_refl.
Qed.

Lemma rows_from_lines_witness :
  exists r h,
    In r (CustomsResult.breakdown (sampleReport ListingB invoiceCFR)) /\
    In h (RegimeResult.hsCodeBreakdown r) /\
    RegimeResult.regime r = InvoiceItem.regime samplePackaging /\
    HSCodeBreakdown.hsCode h = hsKey ListingB samplePackaging.
Proof.
  refine (proj2 (rows_from_lines ListingB invoiceCFR 11
                   (sampleReport ListingB invoiceCFR) _) samplePackaging _).
  - reflexivity.
  - right; left; reflexivity.
Defined.

(** *** What the regime block shows *)

Lemma orNum_self (x : Q) : JS.orNum x 0 == x.
Proof.
  unfold JS.orNum. destruct (Qeq_bool x 0) eqn:E; [|reflexivity].
  apply Qeq_bool_iff in E. now rewrite E.
Qed.

(** X12 (the regime block's freight).  The freight a regime block of the
    report component shows is the sum of the displayed freight of the
    regime's rows.  For a report of listing A that is the regime's stored
    freight value.  For a report of listing B and a regime other than "023"
    under CFR, every row displays the freight ratio times its gross weight
    and the block shows the sum of these figures, while the stored value is
    0. *)
Theorem regime_block_freight v data rate res r :
  calculateCustoms v data rate = JS.Normal res ->
  In r (CustomsResult.breakdown res) ->
  fretSummary r
  == sumQ (map HSCodeBreakdown.fretValueMAD (RegimeResult.hsCodeBreakdown r)) /\
  (v = ListingA -> fretSummary r == RegimeResult.fretValueMAD r) /\
  (v = ListingB -> isCFR v data = true -> RegimeResult.regime r <> "023" ->
   (forall h, In h (RegimeResult.hsCodeBreakdown r) ->
      HSCodeBreakdown.fretValueMAD h
      = globalFretRatio v data rate * HSCodeBreakdown.weightBrut h) /\
   fretSummary r
   == sumQ (map (fun h => globalFretRatio v data rate
                          * HSCodeBreakdown.weightBrut h)
              (RegimeResult.hsCodeBreakdown r)) /\
   RegimeResult.fretValueMAD r = 0).
Proof.
  intros H Hr.
  destruct (report_regime _ _ _ _ _ H Hr) as [_ [groups [Hg Heq]]].
  set (regime := RegimeResult.regime r) in *.
  assert (Hsum : fretSummary r
                 == sumQ (map HSCodeBreakdown.fretValueMAD
                            (RegimeResult.hsCodeBreakdown r))).
  { unfold fretSummary. rewrite orNum_self. apply reduce_sum0. }
  assert (Hrows : RegimeResult.hsCodeBreakdown r
                  = map (hsCodeEntry v data rate regime)
                      (JS.Object_entries groups))
    by (rewrite Heq at 1; reflexivity).
  assert (Hstored : RegimeResult.fretValueMAD r
                    = fretRegimeForVAD v data rate regime
                        (RegimeResult.hsCodeBreakdown r)
                        (RegimeResult.weightBrut r))
    by (rewrite Heq; reflexivity).
  split; [exact Hsum|]. split.
  - intros ->. rewrite Hsum, Hstored. unfold fretRegimeForVAD.
    now rewrite reduce_sum0.
  - intros -> Hc Hne.
    assert (Hrow : forall h, In h (RegimeResult.hsCodeBreakdown r) ->
              HSCodeBreakdown.fretValueMAD h
              = globalFretRatio ListingB data rate
                * HSCodeBreakdown.weightBrut h).
    { intros h Hh. rewrite Hrows in Hh. apply in_map_iff in Hh.
      destruct Hh as [[k xs] [<- _]]. simpl.
      now destruct (fretHS_CFR_other ListingB data rate regime xs Hc Hne). }
    split; [exact Hrow|]. split.
    + rewrite Hsum. apply sumQ_ext. intros h Hh. now rewrite (Hrow h Hh).
    + rewrite Hstored. unfold fretRegimeForVAD.
      apply String.eqb_neq in Hne. now rewrite Hne, Hc.
Qed.

Lemma regime_block_freight_witness :
  fretSummary (packagingRegime ListingB invoiceCFR)
  == sumQ (map (fun h => globalFretRatio ListingB invoiceCFR 11
                         * HSCodeBreakdown.weightBrut h)
             (RegimeResult.hsCodeBreakdown (packagingRegime ListingB invoiceCFR))) /\
  RegimeResult.fretValueMAD (packagingRegime ListingB invoiceCFR) = 0.
Proof.
  destruct (regime_block_freight ListingB invoiceCFR 11
              (sampleReport ListingB invoiceCFR)
              (packagingRegime ListingB invoiceCFR)) as (_ & _ & Hcfr).
  - reflexivity.
  - right; left; reflexivity.
  - apply Hcfr; [reflexivity|reflexivity|discriminate].
Defined.

(** *** Header fields the engine never reads *)

(** X13 (unused header fields).  The outcome of the engine does not depend
    on the invoice number, the date, the currency code, the transport method
    or the origin country: replacing them leaves the report, or the
    exception, unchanged. *)
Theorem header_unused v data rate invoiceNumber date currency transportMethod
        originCountry :
  calculateCustoms v
    (InvoiceData.mk invoiceNumber date currency (InvoiceData.subtotal data)
       (InvoiceData.fret data) (InvoiceData.assurance data)
       (InvoiceData.incoterm data) (InvoiceData.totalWeightBrut data)
       transportMethod originCountry (InvoiceData.items data))
    rate
  = calculateCustoms v data rate.
Proof. destruct data. reflexivity. Qed.

(** *** Signs *)

Lemma Qadd_nonneg (a b : Q) : 0 <= a -> 0 <= b -> 0 <= a + b.
Proof.
  intros Ha Hb. change 0 with (0 + 0). now apply Qplus_le_compat.
Qed.

Lemma Qdiv_nonneg (a b : Q) : 0 <= a -> 0 <= b -> 0 <= a / b.
Proof.
  intros Ha Hb. unfold Qdiv. apply Qmult_le_0_compat; [assumption|].
  now apply Qinv_le_0_compat.
Qed.

Lemma sumQ_nonneg {A : Type} (f : A -> Q) xs :
  (forall x, In x xs -> 0 <= f x) -> 0 <= sumQ (map f xs).
Proof.
  induction xs as [|x xs IH]; intros H; simpl.
  - apply Qle_refl.
  - apply Qadd_nonneg; [apply H; now left|].
    apply IH. intros y Hy. apply H. now right.
Qed.

Lemma reduce_nonneg {A : Type} (f : A -> Q) xs :
  (forall x, In x xs -> 0 <= f x) ->
  0 <= JS.reduce (fun s x => s + f x) xs 0.
Proof.
  intros H. rewrite reduce_sum0. now apply sumQ_nonneg.
Qed.

Lemma orNum_nonneg (x d : Q) : 0 <= x -> 0 <= d -> 0 <= JS.orNum x d.
Proof.
  intros Hx Hd. unfold JS.orNum. now destruct (Qeq_bool x 0).
Qed.

Lemma orOpt_nonneg (x : option Q) : nonnegative x -> 0 <= JS.orOpt x 0.
Proof.
  destruct x as [q|]; simpl; intros H.
  - apply orNum_nonneg; [assumption|apply Qle_refl].
  - apply Qle_refl.
Qed.

Lemma ratios_nonneg v data rate :
  noNegativeFigure data rate ->
  0 <= totalFretMAD data rate /\
  0 <= globalFretRatio v data rate /\
  0 <= globalAconageRatio v data /\
  0 <= fretRatioFor023_CFR v data rate.
Proof.
  intros (Hrate & Hfret & Hw & Hitems).
  assert (HT : 0 <= totalFretMAD data rate)
    by (unfold totalFretMAD; now apply Qmult_le_0_compat).
  assert (H023 : 0 <= weight023Sum data).
  { unfold weight023Sum. apply reduce_nonneg. intros i Hi.
    apply filter_In in Hi. apply orOpt_nonneg. now apply Hitems. }
  split; [exact HT|].
  unfold globalFretRatio, globalAconageRatio, fretRatioFor023_CFR,
    totalWeightBrut, weight023Total.
  destruct v.
  - split; [|split]; apply Qdiv_nonneg; try assumption;
      try (apply orNum_nonneg; [assumption|discriminate]); discriminate.
  - split; [|split].
    + destruct (JS.gt (InvoiceData.totalWeightBrut data) 0);
        [now apply Qdiv_nonneg|apply Qle_refl].
    + destruct (JS.gt (InvoiceData.totalWeightBrut data) 0);
        [apply Qdiv_nonneg; [discriminate|assumption]|apply Qle_refl].
    + destruct (JS.gt (weight023Sum data) 0);
        [now apply Qdiv_nonneg|apply Qle_refl].
Qed.

Lemma row_nonneg v data rate regime items :
  noNegativeFigure data rate ->
  (forall i, In i items -> In i (InvoiceData.items data)) ->
  0 <= weightHS regime items /\
  0 <= netWeightHS items /\
  0 <= fobHS rate items /\
  0 <= fretHSValueForVAD v data rate regime items /\
  0 <= displayFretHS v data rate regime items /\
  0 <= assuranceHS v data rate regime items /\
  0 <= aconageHS v data regime items.
Proof.
  intros Hsigned Hsub.
  destruct (ratios_nonneg v data rate Hsigned) as (HT & Hfr & Har & H023).
  destruct Hsigned as (Hrate & Hfret & Hw & Hitems).
  assert (Hnet : 0 <= netWeightHS items).
  { unfold netWeightHS. apply reduce_nonneg. intros i Hi.
    apply orOpt_nonneg. now apply Hitems, Hsub. }
  assert (Hwt : 0 <= weightHS regime items).
  { unfold weightHS.
    destruct (String.eqb regime "023"); [assumption|].
    destruct (String.eqb regime "312"); [|assumption].
    cbv zeta. apply Qadd_nonneg; apply Qmult_le_0_compat; try discriminate;
      apply reduce_nonneg; intros i Hi; apply orOpt_nonneg;
      now apply Hitems, Hsub. }
  assert (Hfob : 0 <= fobHS rate items).
  { unfold fobHS. apply Qmult_le_0_compat; [|assumption].
    apply reduce_nonneg. intros i Hi. now apply Hitems, Hsub. }
  assert (Hfrets : 0 <= fretHSValueForVAD v data rate regime items /\
                   0 <= displayFretHS v data rate regime items).
  { unfold fretHSValueForVAD, displayFretHS, fretHS.
    destruct (isCFR v data); [destruct (String.eqb regime "023")|]; simpl;
      split; try apply Qle_refl; now apply Qmult_le_0_compat. }
  destruct Hfrets as [Hvf Hdf].
  repeat (split; [assumption|]). split.
  - unfold assuranceHS. apply Qmult_le_0_compat; [|discriminate].
    now apply Qadd_nonneg.
  - unfold aconageHS. now apply Qmult_le_0_compat.
Qed.

(** X14 (no negative amount).  On an invoice without negative figures, at a
    rate that is not negative, no row of a returned report carries a negative
    weight, FOB, freight, insurance or handling, a row's total valuation is
    at least its FOB, and the grand valuation is not negative. *)
Theorem nonnegative_amounts v data rate res :
  calculateCustoms v data rate = JS.Normal res ->
  noNegativeFigure data rate ->
  (forall r h,
      In r (CustomsResult.breakdown res) ->
      In h (RegimeResult.hsCodeBreakdown r) ->
      0 <= HSCodeBreakdown.weightBrut h /\
      0 <= HSCodeBreakdown.fobValueMAD h /\
      0 <= HSCodeBreakdown.fretValueMAD h /\
      0 <= HSCodeBreakdown.assuranceValueMAD h /\
      0 <= HSCodeBreakdown.aconageValueMAD h /\
      HSCodeBreakdown.fobValueMAD h <= HSCodeBreakdown.totalVAD h) /\
  0 <= CustomsResult.totalVAD res.
Proof.
  intros H Hsigned.
  assert (Hrow : forall r h,
             In r (CustomsResult.breakdown res) ->
             In h (RegimeResult.hsCodeBreakdown r) ->
             0 <= HSCodeBreakdown.weightBrut h /\
             0 <= HSCodeBreakdown.fobValueMAD h /\
             0 <= HSCodeBreakdown.fretValueMAD h /\
             0 <= HSCodeBreakdown.assuranceValueMAD h /\
             0 <= HSCodeBreakdown.aconageValueMAD h /\
             HSCodeBreakdown.fobValueMAD h <= HSCodeBreakdown.totalVAD h).
  { intros r h Hr Hh.
    destruct (report_group _ _ _ _ _ _ H Hr Hh) as [items [[groups [Hg Hin]] Heq]].
    assert (Hsub : forall i, In i items -> In i (InvoiceData.items data)).
    { intros i Hi.
      destruct (buckets_keys v data _ groups Hg) as (_ & Hxs & _).
      destruct (Hxs _ _ Hin) as [_ Hitems]. rewrite Hitems in Hi.
      unfold linesWithKey in Hi. apply filter_In in Hi. destruct Hi as [Hi _].
      unfold regimeItems in Hi. apply filter_In in Hi. tauto. }
    destruct (row_nonneg v data rate (RegimeResult.regime r) items Hsigned Hsub)
      as (Hw & _ & Hfob & Hvf & Hdf & Hass & Hacon).
    rewrite Heq. simpl. repeat (split; [assumption|]).
    rewrite <- (Qplus_0_r (fobHS rate items)) at 1.
    rewrite <- !Qplus_assoc. apply Qplus_le_compat; [apply Qle_refl|].
    apply Qadd_nonneg; [assumption|]. now apply Qadd_nonneg. }
  split; [exact Hrow|].
  destruct (calculateCustoms_report _ _ _ _ H) as [bd [_ Hres]].
  assert (Hbd : CustomsResult.breakdown res = bd) by now rewrite Hres.
  rewrite Hres. simpl. apply reduce_nonneg. intros r Hr.
  rewrite <- Hbd in Hr.
  destruct (report_regime _ _ _ _ _ H Hr) as [_ [groups [Hg Heq]]].
  assert (Hrows : forall h, In h (RegimeResult.hsCodeBreakdown r) ->
                            0 <= HSCodeBreakdown.totalVAD h).
  { intros h Hh. destruct (Hrow r h Hr Hh) as (_ & Hfob & _ & _ & _ & Hle).
    now apply (Qle_trans _ (HSCodeBreakdown.fobValueMAD h)). }
  assert (Htot : RegimeResult.totalVAD r
                 = JS.reduce (fun s h => s + HSCodeBreakdown.totalVAD h)
                     (RegimeResult.hsCodeBreakdown r) 0)
    by (rewrite Heq; reflexivity).
  rewrite Htot. now apply reduce_nonneg.
Qed.

Lemma nonnegative_amounts_witness :
  0 <= CustomsResult.totalVAD (sampleReport ListingB invoiceCFR).
Proof.
  refine (proj2 (nonnegative_amounts ListingB invoiceCFR 11
                   (sampleReport ListingB invoiceCFR) _ _)).
  - reflexivity.
  - unfold noNegativeFigure. simpl.
    repeat split; try discriminate;
      match goal with
      | H : _ \/ _ |- _ => destruct H as [<-|[<-|[]]]; simpl; try discriminate
      end; exact I.
Defined.

(** *** When the regimes' freight adds up to the grand freight *)

Lemma regime_freight_value data rate regime groups :
  isCFR ListingB data = true ->
  RegimeResult.fretValueMAD (regimeResultOf ListingB data rate regime groups)
  = if String.eqb "023" regime then totalFretMAD data rate else 0.
Proof.
  intros Hc. unfold regimeResultOf.
  cbn [RegimeResult.fretValueMAD]. unfold fretRegimeForVAD.
  rewrite Hc, andb_true_r, String.eqb_sym. reflexivity.
Qed.

(** X15 (freight conservation under CFR).  In listing B, under CFR, the
    regimes' freight values add up to the report's grand freight as soon as
    the invoice has a line of regime "023": that regime reports the whole
    freight and every other regime 0.  When the invoice has no such line,
    every regime reports 0 and the freight appears in no regime. *)
Theorem freight_conservation v data rate res :
  calculateCustoms v data rate = JS.Normal res ->
  v = ListingB ->
  isCFR v data = true ->
  ((exists i, In i (InvoiceData.items data) /\ InvoiceItem.regime i = "023") ->
   sumQ (map RegimeResult.fretValueMAD (CustomsResult.breakdown res))
   == CustomsResult.totalFretMAD res) /\
  ((forall i, In i (InvoiceData.items data) -> InvoiceItem.regime i <> "023") ->
   forall r, In r (CustomsResult.breakdown res) ->
     RegimeResult.fretValueMAD r = 0).
Proof.
  intros H -> Hc.
  assert (Hgrand : CustomsResult.totalFretMAD res = totalFretMAD data rate).
  { destruct (calculateCustoms_report _ _ _ _ H) as [bd [_ ->]]. reflexivity. }
  split.
  - intros H023. rewrite Hgrand.
    rewrite (sum_over_breakdown ListingB data rate res RegimeResult.fretValueMAD
               (fun regime => if String.eqb "023" regime
                              then totalFretMAD data rate else 0) H).
    + apply sumQ_indicator; [apply distinct_NoDup|].
      now apply regimesFound_In.
    + intros regime groups _.
      now rewrite (regime_freight_value data rate regime groups Hc).
  - intros Hnone r Hr.
    destruct (report_regime _ _ _ _ _ H Hr) as [Hfound [groups [_ ->]]].
    rewrite (regime_freight_value data rate _ groups Hc).
    destruct (String.eqb "023" (RegimeResult.regime r)) eqn:E; [|reflexivity].
    apply String.eqb_eq in E. apply regimesFound_In in Hfound.
    destruct Hfound as [i [Hi Hreg]]. exfalso.
    apply (Hnone i Hi). now rewrite Hreg, <- E.
Qed.

Lemma freight_conservation_witness :
  sumQ (map RegimeResult.fretValueMAD
          (CustomsResult.breakdown (sampleReport ListingB invoiceCFR)))
  == CustomsResult.totalFretMAD (sampleReport ListingB invoiceCFR).
Proof.
  destruct (freight_conservation ListingB invoiceCFR 11
              (sampleReport ListingB invoiceCFR)) as [H023 _].
  - reflexivity.
  - reflexivity.
  - reflexivity.
  - apply H023. exists sampleGoods. split; [now left|reflexivity].
Defined.
